(** * Movie research assistant: the query pipeline of [MovieAgent] and [MovieAgentGUI]

    A shallow embedding of [src/movie_agent.py] and of the query handling of
    [src/movie_agent_gui.py].

    - Text is [string]: a sequence of code points below 256, on which
      [str.lower], [str.strip], [str.replace], [str.startswith], [in] and
      slicing are written out as Python defines them.
    - The JSON objects of the catalog are records; a key read with
      [dict.get(k, default)] is an [option] field, a key read with [d[k]] is a
      plain field.
    - The three services (generative text, catalog, web search) are the fields
      of a [World]: what each request answers, an exception included.
    - Effects are a trace of [event]s: the agent's methods run in a writer
      monad, the GUI's methods thread the fields of [self] besides. *)

From Stdlib Require Import String Ascii List ZArith Lia Bool DecimalString.
Import ListNotations.
Open Scope string_scope.

(** ** Python text operations *)

Module Py.

(** One-character strings that a Rocq literal cannot hold conveniently. *)
Definition dquote : string := String (ascii_of_nat 34) "".
Definition nl : string := String (ascii_of_nat 10) "".

(** [str.isspace] of one code point below 256. *)
Definition isspace (c : ascii) : bool :=
  let n := nat_of_ascii c in
  (((9 <=? n) && (n <=? 13)) || ((28 <=? n) && (n <=? 32))
   || (n =? 133) || (n =? 160))%nat.

(** [str.lower] of one code point below 256: A-Z and the capital letters of
    Latin-1 (all of 0xC0-0xDE but the multiplication sign 0xD7). *)
Definition lower_char (c : ascii) : ascii :=
  let n := nat_of_ascii c in
  if (((65 <=? n) && (n <=? 90))
      || ((192 <=? n) && (n <=? 222) && negb (n =? 215)))%nat
  then ascii_of_nat (n + 32) else c.

Fixpoint lower (s : string) : string :=
  match s with
  | "" => ""
  | String c r => String (lower_char c) (lower r)
  end.

Fixpoint lstrip (s : string) : string :=
  match s with
  | "" => ""
  | String c r => if isspace c then lstrip r else s
  end.

Fixpoint rstrip (s : string) : string :=
  match s with
  | "" => ""
  | String c r =>
      match rstrip r with
      | "" => if isspace c then "" else String c ""
      | r' => String c r'
      end
  end.

(** [s.strip()] *)
Definition strip (s : string) : string := rstrip (lstrip s).

(** [s.startswith(p)] *)
Definition startswith (s p : string) : bool := prefix p s.

(** [sub in s] *)
Fixpoint contains (sub s : string) : bool :=
  prefix sub s ||
  match s with
  | "" => false
  | String _ r => contains sub r
  end.

(** [s.replace(old, new)] for a non-empty [old]: one pass from the left,
    occurrences do not overlap and the replacement is not scanned again.
    [skip] counts the characters of a matched occurrence still to drop. *)
Fixpoint replace_from (skip : nat) (old new s : string) : string :=
  match s with
  | "" => ""
  | String c r =>
      match skip with
      | S k => replace_from k old new r
      | O =>
          if prefix old s
          then new ++ replace_from (String.length old - 1) old new r
          else String c (replace_from 0 old new r)
      end
  end.

Definition replace (s old new : string) : string := replace_from 0 old new s.

(** [s[:n]] *)
Definition take (n : nat) (s : string) : string := substring 0 n s.

(** [bool(s)] *)
Definition truthy (s : string) : bool := negb (s =? "").

(** [sep.join(l)] *)
Definition join (sep : string) (l : list string) : string := String.concat sep l.

(** [str(n)] of an int. *)
Definition str_int (n : Z) : string := NilZero.string_of_int (Z.to_int n).

(** The digits of [format(n, ',')], from the least significant one:
    a comma after every third digit that is followed by another. *)
Fixpoint group3 (k : nat) (rev_digits : list ascii) : list ascii :=
  match rev_digits with
  | [] => []
  | d :: ds =>
      match k, ds with
      | _, [] => [d]
      | O, _ => d :: ","%char :: group3 2 ds
      | S k', _ => d :: group3 k' ds
      end
  end.

Definition group_digits (digits : string) : string :=
  string_of_list_ascii (rev (group3 2 (rev (list_ascii_of_string digits)))).

(** [format(n, ',')] of an int, as in [f"{n:,}"]. *)
Definition format_thousands (n : Z) : string :=
  let digits := NilZero.string_of_uint (N.to_uint (Z.abs_N n)) in
  (if (n <? 0)%Z then "-" else "") ++ group_digits digits.

End Py.

(** ** Data model: the JSON objects of the catalog and the agent's results *)

(** One entry of [movie_data["videos"]["results"]]. *)
Record Video := {
  video_site : string;   (* video["site"] *)
  video_type : string;   (* video["type"] *)
  video_key : string     (* video["key"] *)
}.

(** One entry of [movie_data["credits"]["crew"]]. *)
Record CrewMember := {
  crew_name : string;    (* member["name"] *)
  crew_job : string      (* member["job"] *)
}.

(** An element of the [results] array of a catalog search. *)
Record MovieSummary := {
  summary_id : Z;                          (* movie["id"] *)
  summary_title : string;                  (* movie["title"] *)
  summary_release_date : option string     (* movie.get("release_date") *)
}.

(** The detail object of a movie. Every key the agent reads with [.get] is
    optional; [genres], [crew] and [cast] are the lists the agent iterates
    over, empty when the key is absent; [vote_average] is the number as Python
    prints it. *)
Record MovieDetails := {
  title : option string;
  release_date : option string;
  overview : option string;
  vote_average : option string;
  genres : list string;                    (* genre["name"] of each genre *)
  runtime : option Z;
  budget : option Z;
  revenue : option Z;
  crew : list CrewMember;
  cast : list string;                      (* member["name"] of each member *)
  videos : option (list Video);            (* movie_data["videos"]["results"] *)
  poster_path : option string
}.

(** The dictionary [find_trailer] returns. *)
Record TrailerInfo := {
  trailer_title : string;
  trailer_url : string;
  trailer_video_id : string
}.

(** The [context] dictionary of [generate_movie_response]. [ctx_vote_average]
    and [ctx_runtime] hold the text the f-strings print for them. *)
Record Context := {
  ctx_title : string;
  ctx_release_date : string;
  ctx_overview : string;
  ctx_vote_average : string;
  ctx_genres : list string;
  ctx_runtime : string;
  ctx_budget : Z;
  ctx_revenue : Z;
  ctx_director : string;
  ctx_cast : list string;
  ctx_trailer : string
}.

(** ** The services *)

(** A single-shot completion: [response.text], or an exception. *)
Inductive Completion :=
| Text (text : string)
| Raised.

(** A streamed completion: the chunks in the order they arrive, until the
    stream ends or an exception is raised (by the request, by the iteration
    or by [chunk.text]). *)
Inductive Stream :=
| StreamEnd
| StreamRaised
| Chunk (piece : string) (rest : Stream).

(** The answer to [requests.get]: a [RequestException] raised by the
    transport, or a response with its status code and its decoded body. *)
Inductive HttpReply (A : Type) :=
| RequestFailed
| Responded (status : Z) (body : A).
Arguments RequestFailed {A}.
Arguments Responded {A} status body.

(** [response.raise_for_status()] raises for the 4xx and 5xx codes. *)
Definition raises_for_status (status : Z) : bool :=
  ((400 <=? status) && (status <? 600))%Z.

Record World := {
  (** [src.config.TMDB_API_KEY], a constant of the configuration module. *)
  TMDB_API_KEY : string;
  (** [gemini_model.generate_content(prompt)] *)
  generate_content : string -> Completion;
  (** [gemini_model.generate_content(prompt, stream=True)] *)
  generate_content_stream : string -> Stream;
  (** [GET /search/movie]: the [results] array, by the [query] parameter. *)
  tmdb_search : string -> HttpReply (list MovieSummary);
  (** [GET /movie/{id}] *)
  tmdb_details : Z -> HttpReply MovieDetails;
  (** The search page, by its URL: [link.get('href')] of every [a] element
      [BeautifulSoup] finds, in document order. *)
  web_search : string -> HttpReply (list (option string));
  (** Whether the poster of a path can be fetched and opened. *)
  poster_image : string -> bool
}.

(** ** Effects *)

(** What the agent and the GUI do that an observer can see. *)
Inductive ui_update :=
| UpdateUiForMovie (details : MovieDetails) (trailer : option TrailerInfo)
    (poster : bool)
| UpdateUiForGeneralQuery (query : string)
| AppendText (text : string)
| EnableSearchButton.

Inductive agent_call :=
| ProcessUserQuery (query : string)
| SearchMovie (query : string)
| GetMovieDetails (movie_id : Z)
| FindTrailer (movie_title : string) (year : option string)
| GetPosterImage (path : string)
| GenerateMovieResponse (details : MovieDetails) (trailer : option TrailerInfo)
    (streaming : bool)
| GenerateGeneralResponse (query : string) (streaming : bool).

Inductive event :=
| Generate (prompt : string) (stream : bool)    (* a request to the model *)
| HttpGet (url : string) (params : list (string * string)) (* requests.get *)
| Sink (fragment : string)                      (* a recording callback *)
| Status (message : string)                     (* show_status *)
| After (u : ui_update)                         (* root.after(0, ...) *)
| Call (c : agent_call)                         (* self.agent.<method>(...) *)
| Uncaught (exception : string).                (* the handler's thread dies *)

(** A computation that returns a value and leaves a trace. *)
Definition M (A : Type) : Type := (A * list event)%type.

Definition ret {A} (a : A) : M A := (a, []).

Definition bind {A B} (m : M A) (f : A -> M B) : M B :=
  let (a, t1) := m in
  let (b, t2) := f a in
  (b, (t1 ++ t2)%list).

Definition tell (e : event) : M unit := (tt, [e]).

Notation "x <- m ;; k" := (bind m (fun x => k))
  (at level 61, m at next level, right associativity).
Notation "m ;;; k" := (bind m (fun _ => k))
  (at level 61, right associativity).

(** A callback, as the agent's [callback] parameter: [None] is Python's
    [None]. *)
Definition Callback : Type := option (string -> M unit).

(** The callback that records every fragment it is given. *)
Definition recording_sink : string -> M unit := fun piece => tell (Sink piece).

(** The fragments a trace shows the recording callback received, in order. *)
Fixpoint sink_fragments (t : list event) : list string :=
  match t with
  | [] => []
  | Sink piece :: t' => piece :: sink_fragments t'
  | _ :: t' => sink_fragments t'
  end.

(** ** [MovieAgent] *)

Definition tmdb_base_url : string := "https://api.themoviedb.org/3".

(** A triple-quoted template, line by line. *)
Definition template (lines : list string) : string := Py.join Py.nl lines.

Definition classification_prompt (query : string) : string :=
  template [
    "";
    "        Determine if the following query is asking about a specific movie or is a general question.";
    "";
    "        Query: " ++ Py.dquote ++ query ++ Py.dquote;
    "";
    "        If it's about a specific movie, respond with:";
    "        movie: [extracted movie title]";
    "";
    "        If it's a general question or request, respond with:";
    "        general: [original query]";
    "";
    "        Be very concise and only return one of the above formats.";
    "        " ].

(** [process_user_query]: the query type, ["movie"] or ["general"], and the
    refined query. *)
Definition process_user_query (w : World) (query : string)
  : M (string * string) :=
  tell (Generate (classification_prompt query) false) ;;;
  match generate_content w (classification_prompt query) with
  | Text text =>
      let result := Py.lower (Py.strip text) in
      if Py.startswith result "movie:"
      then ret ("movie", Py.strip (Py.replace result "movie:" ""))
      else ret ("general", query)
  | Raised =>
      (* Default to treating it as a movie search if classification fails *)
      ret ("movie", query)
  end.

(** [search_movie] *)
Definition search_movie (w : World) (query : string) : M (option MovieSummary) :=
  let url := tmdb_base_url ++ "/search/movie" in
  tell (HttpGet url [("api_key", TMDB_API_KEY w); ("query", query);
                     ("language", "en-US"); ("include_adult", "false")]) ;;;
  match tmdb_search w query with
  | Responded status results =>
      if raises_for_status status then ret None
      else if negb (Nat.eqb (List.length results) 0)
              && Nat.ltb 0 (List.length results)
      then ret (nth_error results 0)
      else ret None
  | RequestFailed => ret None
  end.

(** [get_movie_details] *)
Definition get_movie_details (w : World) (movie_id : Z) : M (option MovieDetails) :=
  let url := tmdb_base_url ++ "/movie/" ++ Py.str_int movie_id in
  tell (HttpGet url [("api_key", TMDB_API_KEY w); ("language", "en-US");
                     ("append_to_response", "credits,reviews,similar,videos")]) ;;;
  match tmdb_details w movie_id with
  | Responded status details =>
      if raises_for_status status then ret None else ret (Some details)
  | RequestFailed => ret None
  end.

(** [video["site"] == "YouTube" and video["type"] == "Trailer"] *)
Definition is_youtube_trailer (video : Video) : bool :=
  (video_site video =? "YouTube") && (video_type video =? "Trailer").

(** The loop over [movie_data["videos"]["results"]]: the first video that
    passes the test, if the guard of the loop lets it run. *)
Definition tmdb_trailer_video (movie_data : option MovieDetails) : option Video :=
  match movie_data with
  | Some data =>
      match videos data with
      | Some ((_ :: _) as results) => List.find is_youtube_trailer results
      | _ => None
      end
  | None => None
  end.

(** The characters of [s] before its first [&]: what [[^&]*] matches at the
    start of [s]. *)
Fixpoint until_ampersand (s : string) : string :=
  match s with
  | "" => ""
  | String c r => if Ascii.eqb c "&" then "" else String c (until_ampersand r)
  end.

(** Group 1 of [re.search(r'youtube\.com/watch\?v=([^&]+)', href)], [None]
    when there is no match: the leftmost position where the literal text is
    followed by at least one character other than [&]. *)
Fixpoint re_search_watch (href : string) : option string :=
  let here :=
    if prefix "youtube.com/watch?v=" href
    then until_ampersand (substring 20 (String.length href - 20) href)
    else "" in
  if Py.truthy here then Some here
  else match href with
       | "" => None
       | String _ r => re_search_watch r
       end.

(** The body of the loop over [soup.find_all('a')]: what one link appends to
    [youtube_links]. *)
Definition youtube_link (movie_title : string) (link : option string)
  : list TrailerInfo :=
  let href := match link with Some h => h | None => "" end in
  if Py.contains "youtube.com/watch" href then
    match re_search_watch href with
    | Some video_id =>
        [ {| trailer_title := movie_title ++ " Trailer";
             trailer_url := "https://www.youtube.com/watch?v=" ++ video_id;
             trailer_video_id := video_id |} ]
    | None => []
    end
  else [].

(** The search query of the fallback: [if year:] holds for a year that is
    neither [None] nor empty. *)
Definition trailer_search_query (movie_title : string) (year : option string)
  : string :=
  let search_query := movie_title ++ " official trailer" in
  match year with
  | Some y => if Py.truthy y then search_query ++ " " ++ y else search_query
  | None => search_query
  end.

Definition trailer_search_url (search_query : string) : string :=
  "https://www.google.com/search?q=" ++ search_query ++ "+site:youtube.com".

(** [find_trailer] *)
Definition find_trailer (w : World) (movie_title : string)
    (year : option string) (movie_data : option MovieDetails)
  : M (option TrailerInfo) :=
  (* First try TMDB videos if available *)
  match tmdb_trailer_video movie_data with
  | Some video =>
      ret (Some {| trailer_title := movie_title ++ " Official Trailer";
                   trailer_url := "https://www.youtube.com/watch?v=" ++ video_key video;
                   trailer_video_id := video_key video |})
  | None =>
      (* Web scraping approach as fallback *)
      let search_url := trailer_search_url (trailer_search_query movie_title year) in
      tell (HttpGet search_url []) ;;;
      match web_search w search_url with
      | Responded status links =>
          if raises_for_status status then ret None
          else
            let youtube_links := flat_map (youtube_link movie_title) links in
            match youtube_links with
            | first :: _ => ret (Some first)
            | [] => ret None
            end
      | RequestFailed => ret None
      end
  end.

(** An opened poster image. *)
Inductive Image := PosterAt (url : string).

(** [get_poster_image] *)
Definition get_poster_image (w : World) (poster_path : string) : M (option Image) :=
  if negb (Py.truthy poster_path) then ret None
  else
    let poster_url := "https://image.tmdb.org/t/p/w500" ++ poster_path in
    tell (HttpGet poster_url []) ;;;
    if poster_image w poster_path then ret (Some (PosterAt poster_url))
    else ret None.

(** [_get_director] *)
Definition _get_director (movie_data : MovieDetails) : string :=
  let directors :=
    map crew_name (filter (fun member => crew_job member =? "Director")
                          (crew movie_data)) in
  match directors with
  | first :: _ => first
  | [] => "Unknown"
  end.

(** [_get_cast] *)
Definition _get_cast (movie_data : MovieDetails) : list string :=
  cast movie_data.

(** [d.get(key, default)] *)
Definition get {A} (field : option A) (default : A) : A :=
  match field with
  | Some v => v
  | None => default
  end.

(** The [context] of [generate_movie_response]. *)
Definition make_context (movie_data : MovieDetails)
    (trailer_info : option TrailerInfo) : Context :=
  {| ctx_title := get (title movie_data) "Unknown";
     ctx_release_date := get (release_date movie_data) "Unknown";
     ctx_overview := get (overview movie_data) "No overview available";
     ctx_vote_average := get (vote_average movie_data) "N/A";
     ctx_genres := genres movie_data;
     ctx_runtime := match runtime movie_data with
                    | Some minutes => Py.str_int minutes
                    | None => "Unknown"
                    end;
     ctx_budget := get (budget movie_data) 0%Z;
     ctx_revenue := get (revenue movie_data) 0%Z;
     ctx_director := _get_director movie_data;
     ctx_cast := _get_cast movie_data;
     ctx_trailer := match trailer_info with
                    | Some info => trailer_url info
                    | None => "Trailer not available"
                    end |}.

Definition movie_prompt (context : Context) : string :=
  template [
    "";
    "        Based on the following movie information, create a comprehensive and engaging summary:";
    "";
    "        Title: " ++ ctx_title context;
    "        Release Date: " ++ ctx_release_date context;
    "        Runtime: " ++ ctx_runtime context ++ " minutes";
    "        Genres: " ++ Py.join ", " (ctx_genres context);
    "        Rating: " ++ ctx_vote_average context ++ "/10";
    "        Director: " ++ ctx_director context;
    "        Main Cast: " ++ Py.join ", " (firstn 5 (ctx_cast context));
    "";
    "        Overview: " ++ ctx_overview context;
    "";
    "        Budget: $" ++ Py.format_thousands (ctx_budget context);
    "        Revenue: $" ++ Py.format_thousands (ctx_revenue context);
    "";
    "        Trailer: " ++ ctx_trailer context;
    "";
    "        Provide insights about the movie's reception, significance, and interesting facts if applicable.";
    "        Format the response in a clear, professional way for someone interested in learning about this movie.";
    "        DO NOT use markdown formatting. Use plain text formatting with clear section divisions.";
    "        " ].

(** [_create_fallback_response] *)
Definition _create_fallback_response (context : Context) : string :=
  template [
    "";
    "        " ++ ctx_title context
      ++ " (" ++ Py.take 4 (ctx_release_date context) ++ ")";
    "";
    "        Rating: " ++ ctx_vote_average context ++ "/10  ";
    "        Runtime: " ++ ctx_runtime context ++ " minutes  ";
    "        Genres: " ++ Py.join ", " (ctx_genres context);
    "";
    "        Overview:";
    "        " ++ ctx_overview context;
    "";
    "        Cast & Crew:";
    "        Director: " ++ ctx_director context ++ "  ";
    "        Starring: " ++ Py.join ", " (firstn 5 (ctx_cast context));
    "";
    "        Watch Trailer:";
    "        " ++ ctx_trailer context;
    "";
    "        Budget: $" ++ Py.format_thousands (ctx_budget context) ++ "  ";
    "        Box Office: $" ++ Py.format_thousands (ctx_revenue context);
    "        " ].

Definition general_prompt (query : string) : string :=
  template [
    "";
    "        The user has asked: " ++ Py.dquote ++ query ++ Py.dquote;
    "";
    "        Please provide a helpful, informative response. If this is a question about movies in general";
    "        (not about a specific film), provide relevant information about the topic.";
    "";
    "        If you're not sure what the user is asking for, try to interpret their query in the context";
    "        of movies, cinema, or entertainment.";
    "";
    "        Format your response in plain text with clear section divisions. DO NOT use markdown formatting.";
    "        " ].

Definition general_fallback (query : string) : string :=
  "I'm sorry, I couldn't process your query: '" ++ query
  ++ "'. Please try asking in a different way.".

(** The streaming loop, [for chunk in ...: piece = chunk.text;
    response_text += piece; callback(piece)]: the accumulated text when the
    stream ends, [None] when an exception leaves the loop. *)
Fixpoint stream_loop (callback : string -> M unit) (chunks : Stream)
    (response_text : string) : M (option string) :=
  match chunks with
  | StreamEnd => ret (Some response_text)
  | StreamRaised => ret None
  | Chunk piece rest =>
      callback piece ;;; stream_loop callback rest (response_text ++ piece)
  end.

(** The body of the [try] of both synthesis methods: the text it returns, or
    [None] when it raises. *)
Definition try_generate (w : World) (prompt : string) (streaming : bool)
    (callback : Callback) : M (option string) :=
  match streaming, callback with
  | true, Some cb =>
      (* For streaming response *)
      tell (Generate prompt true) ;;;
      stream_loop cb (generate_content_stream w prompt) ""
  | _, _ =>
      (* For non-streaming response *)
      tell (Generate prompt false) ;;;
      match generate_content w prompt with
      | Text text => ret (Some text)
      | Raised => ret None
      end
  end.

(** The [except] clause of both synthesis methods. *)
Definition deliver_fallback (fallback : string) (callback : Callback) : M string :=
  match callback with
  | Some cb => cb fallback ;;; ret fallback
  | None => ret fallback
  end.

(** [generate_movie_response] *)
Definition generate_movie_response (w : World) (movie_data : MovieDetails)
    (trailer_info : option TrailerInfo) (streaming : bool) (callback : Callback)
  : M string :=
  let context := make_context movie_data trailer_info in
  let prompt := movie_prompt context in
  attempt <- try_generate w prompt streaming callback ;;
  match attempt with
  | Some response_text => ret response_text
  | None =>
      (* Fall back to formatted response if Gemini fails *)
      deliver_fallback (_create_fallback_response context) callback
  end.

(** [generate_general_response] *)
Definition generate_general_response (w : World) (query : string)
    (streaming : bool) (callback : Callback) : M string :=
  let prompt := general_prompt query in
  attempt <- try_generate w prompt streaming callback ;;
  match attempt with
  | Some response_text => ret response_text
  | None => deliver_fallback (general_fallback query) callback
  end.

(** ** [MovieAgentGUI]: the handling of one query *)

(** The attributes of [self] the handler assigns. *)
Record Gui := {
  trailer_info : option TrailerInfo;
  current_movie : option MovieDetails;
  last_query_type : option string;
  last_query : option string
}.

(** [__init__] *)
Definition init_gui : Gui :=
  {| trailer_info := None; current_movie := None;
     last_query_type := None; last_query := None |}.

(** [show_status] *)
Definition show_status (message : string) : M unit := tell (Status message).

(** The callback the GUI hands to the agent,
    [lambda text: self.root.after(0, lambda: self._append_text(text))]. *)
Definition append_later : string -> M unit :=
  fun text => tell (After (AppendText text)).

(** [_answer_general_query] *)
Definition _answer_general_query (w : World) (query : string) (self : Gui)
  : M Gui :=
  show_status ("Answering: " ++ query) ;;;
  (* Update UI for general query (hide movie-specific elements) *)
  tell (After (UpdateUiForGeneralQuery query)) ;;;
  (* Generate response with streaming *)
  tell (Call (GenerateGeneralResponse query true)) ;;;
  generate_general_response w query true (Some append_later) ;;;
  ret self.

(** [_handle_movie_not_found] *)
Definition _handle_movie_not_found (w : World) (query : string) (self : Gui)
  : M Gui :=
  (* Treat it as a general query instead *)
  show_status ("Treating '" ++ query ++ "' as a general question...") ;;;
  _answer_general_query w query self.

(** Whether a detail object is [{}]: the record in which every field is
    absent stands for the object without keys. *)
Definition is_empty_object (d : MovieDetails) : bool :=
  match title d, release_date d, overview d, vote_average d, runtime d,
        budget d, revenue d, videos d, poster_path d,
        genres d, crew d, cast d with
  | None, None, None, None, None, None, None, None, None, [], [], [] => true
  | _, _, _, _, _, _, _, _, _, _, _, _ => false
  end.

(** What [if not movie_details:] lets through: a value that is neither
    [None] nor an object without keys. *)
Definition truthy_details (movie_details : option MovieDetails)
  : option MovieDetails :=
  match movie_details with
  | Some d => if is_empty_object d then None else Some d
  | None => None
  end.

(** [_search_movie] *)
Definition _search_movie (w : World) (query : string) (self : Gui) : M Gui :=
  show_status ("Searching for movie: " ++ query) ;;;
  (* Search for movie *)
  tell (Call (SearchMovie query)) ;;;
  movie <- search_movie w query ;;
  match movie with
  | None =>
      show_status ("Movie not found: " ++ query) ;;;
      _handle_movie_not_found w query self
  | Some movie =>
      show_status ("Found: " ++ summary_title movie ++ " - Getting details...") ;;;
      (* Get detailed information *)
      tell (Call (GetMovieDetails (summary_id movie))) ;;;
      movie_details <- get_movie_details w (summary_id movie) ;;
      match truthy_details movie_details with
      | None =>
          show_status ("Error fetching details for " ++ summary_title movie) ;;;
          tell (After EnableSearchButton) ;;;
          ret self
      | Some movie_details =>
          let self := {| trailer_info := trailer_info self;
                         current_movie := Some movie_details;
                         last_query_type := last_query_type self;
                         last_query := last_query self |} in
          (* Find trailer *)
          let release_year :=
            match summary_release_date movie with
            | Some date => if Py.truthy date then Some (Py.take 4 date) else None
            | None => None
            end in
          tell (Call (FindTrailer (summary_title movie) release_year)) ;;;
          trailer <- find_trailer w (summary_title movie) release_year
                       (Some movie_details) ;;
          let self := {| trailer_info := trailer;
                         current_movie := current_movie self;
                         last_query_type := last_query_type self;
                         last_query := last_query self |} in
          (* Load poster *)
          poster_image <-
            match poster_path movie_details with
            | Some path =>
                if Py.truthy path
                then tell (Call (GetPosterImage path)) ;;;
                     get_poster_image w path
                else ret None
            | None => ret None
            end ;;
          (* Update UI in main thread *)
          tell (After (UpdateUiForMovie movie_details trailer
                         (match poster_image with Some _ => true | None => false end))) ;;;
          (* Generate response with streaming *)
          match title movie_details with
          | Some movie_title =>
              show_status ("Generating information about " ++ movie_title ++ "...") ;;;
              tell (Call (GenerateMovieResponse movie_details trailer true)) ;;;
              generate_movie_response w movie_details trailer true
                (Some append_later) ;;;
              ret self
          | None =>
              (* movie_details['title'] raises KeyError *)
              tell (Uncaught "KeyError") ;;;
              ret self
          end
      end
  end.

(** [_handle_query] *)
Definition _handle_query (w : World) (query : string) (self : Gui) : M Gui :=
  (* Determine query type *)
  tell (Call (ProcessUserQuery query)) ;;;
  classification <- process_user_query w query ;;
  let (query_type, refined_query) := classification in
  let self := {| trailer_info := trailer_info self;
                 current_movie := current_movie self;
                 last_query_type := Some query_type;
                 last_query := Some query |} in
  if query_type =? "movie"
  then _search_movie w refined_query self
  else _answer_general_query w query self.

(** ** Reading a trace *)

(** The synthesis calls of a trace: the calls of [generate_movie_response]
    and [generate_general_response], in order. *)
Definition is_synthesis_call (e : event) : bool :=
  match e with
  | Call (GenerateMovieResponse _ _ _) => true
  | Call (GenerateGeneralResponse _ _) => true
  | _ => false
  end.

Definition synthesis_calls (t : list event) : list event :=
  filter is_synthesis_call t.

(** The text the GUI's callback scheduled for display, in order. *)
Fixpoint appended_text (t : list event) : list string :=
  match t with
  | [] => []
  | After (AppendText text) :: t' => text :: appended_text t'
  | _ :: t' => appended_text t'
  end.

(** The status messages of a trace, in order. *)
Fixpoint status_messages (t : list event) : list string :=
  match t with
  | [] => []
  | Status message :: t' => message :: status_messages t'
  | _ :: t' => status_messages t'
  end.

(** ** Reading a service answer *)

(** The fragments of a stream, in the order they arrive. *)
Fixpoint stream_pieces (chunks : Stream) : list string :=
  match chunks with
  | Chunk piece rest => piece :: stream_pieces rest
  | StreamEnd | StreamRaised => []
  end.

(** Whether a stream ends without an exception. *)
Fixpoint stream_completes (chunks : Stream) : bool :=
  match chunks with
  | Chunk _ rest => stream_completes rest
  | StreamEnd => true
  | StreamRaised => false
  end.

(** Whether the request a synthesis call makes for [prompt] fails: the
    streamed one when [streaming and callback] holds, the single-shot one
    otherwise. *)
Definition service_fails (w : World) (prompt : string) (streaming : bool)
    (callback : Callback) : bool :=
  match streaming, callback with
  | true, Some _ => negb (stream_completes (generate_content_stream w prompt))
  | _, _ =>
      match generate_content w prompt with
      | Text _ => false
      | Raised => true
      end
  end.

(** ** The classification as the specification words it *)

(** The refined title of a reply that starts with the marker, following the
    words of the specification: the reply is stripped and lowercased, and the
    title is the text that trails the marker, stripped. *)
Definition trailing_title (text : string) : string :=
  let result := Py.lower (Py.strip text) in
  Py.strip (substring 6 (String.length result - 6) result).

(** ** The watch-URL pattern as the specification words it *)

(** [href] holds [youtube.com/watch?v=<id>] with [video_id] for [<id>]: a
    non-empty run of characters without [&] right after the literal text. *)
Definition watch_pattern (href video_id : string) : Prop :=
  exists before after,
    href = before ++ "youtube.com/watch?v=" ++ video_id ++ after
    /\ video_id <> ""
    /\ Py.contains "&" video_id = false.

(** A link none of whose texts fits the pattern. *)
Definition no_watch_link (link : option string) : Prop :=
  forall href video_id, link = Some href -> ~ watch_pattern href video_id.

(** ** [MovieAgentGUI]: the widgets and the main thread *)

Module Ui.

(** The state of the widgets the methods configure. *)
Record Widgets := {
  search_var : string;          (* the text of the entry *)
  info_text : string;           (* the content of the text area *)
  poster_label_text : string;
  poster_label_image : bool;    (* whether the label shows an image *)
  title_label : string;
  trailer_button : bool;        (* state == tk.NORMAL *)
  search_button : bool;         (* state == tk.NORMAL *)
  status_var : string
}.

(** [setup_ui] *)
Definition setup_ui : Widgets :=
  {| search_var := ""; info_text := "";
     poster_label_text := "No poster available"; poster_label_image := false;
     title_label := ""; trailer_button := false; search_button := true;
     status_var := "Ready" |}.

(** [show_status], without its timer: [status_var.set(message)]. *)
Definition show_status (message : string) (ws : Widgets) : Widgets :=
  {| search_var := search_var ws; info_text := info_text ws;
     poster_label_text := poster_label_text ws;
     poster_label_image := poster_label_image ws;
     title_label := title_label ws; trailer_button := trailer_button ws;
     search_button := search_button ws; status_var := message |}.

(** The callback [show_status] schedules after five seconds for a message
    other than ["Ready"]. *)
Definition status_timeout (message : string) (ws : Widgets) : Widgets :=
  if status_var ws =? message then show_status "Ready" ws else ws.

(** [search_button.config(state=...)] *)
Definition config_search_button (enabled : bool) (ws : Widgets) : Widgets :=
  {| search_var := search_var ws; info_text := info_text ws;
     poster_label_text := poster_label_text ws;
     poster_label_image := poster_label_image ws;
     title_label := title_label ws; trailer_button := trailer_button ws;
     search_button := enabled; status_var := status_var ws |}.

(** [_update_ui_for_movie]. [movie_details['title']] is its first statement:
    without the key the callback raises and configures nothing. *)
Definition _update_ui_for_movie (movie_details : MovieDetails)
    (trailer : option TrailerInfo) (poster : bool) (ws : Widgets) : Widgets :=
  match title movie_details with
  | None => ws
  | Some movie_title =>
      let title_text :=
        match release_date movie_details with
        | Some date =>
            if Py.truthy date
            then movie_title ++ " (" ++ Py.take 4 date ++ ")"
            else movie_title
        | None => movie_title
        end in
      {| search_var := search_var ws; info_text := info_text ws;
         poster_label_text := if poster then "" else "No poster available";
         poster_label_image := poster;
         title_label := title_text;
         trailer_button := match trailer with Some _ => true | None => false end;
         search_button := true; status_var := status_var ws |}
  end.

(** [_update_ui_for_general_query] *)
Definition _update_ui_for_general_query (query : string) (ws : Widgets)
  : Widgets :=
  {| search_var := search_var ws; info_text := info_text ws;
     poster_label_text := ""; poster_label_image := false;
     title_label :=
       if Nat.ltb 30 (String.length query)
       then "Query: " ++ Py.take 30 query ++ "..."
       else "Query: " ++ query;
     trailer_button := false; search_button := true;
     status_var := status_var ws |}.

(** [_append_text] *)
Definition _append_text (text : string) (ws : Widgets) : Widgets :=
  let ws :=
    {| search_var := search_var ws; info_text := info_text ws ++ text;
       poster_label_text := poster_label_text ws;
       poster_label_image := poster_label_image ws;
       title_label := title_label ws; trailer_button := trailer_button ws;
       search_button := search_button ws; status_var := status_var ws |} in
  if Py.truthy text then show_status "Ready" ws else ws.

(** [clear_info] *)
Definition clear_info (ws : Widgets) : Widgets :=
  {| search_var := search_var ws; info_text := "";
     poster_label_text := ""; poster_label_image := false;
     title_label := ""; trailer_button := false;
     search_button := search_button ws; status_var := status_var ws |}.

(** [open_trailer]: the URL handed to [webbrowser.open], if any. *)
Definition open_trailer (self : Gui) (ws : Widgets) : option string * Widgets :=
  match trailer_info self with
  | Some info =>
      if Py.truthy (trailer_url info) then (Some (trailer_url info), ws)
      else (None, show_status "No trailer available" ws)
  | None => (None, show_status "No trailer available" ws)
  end.

(** What a callback scheduled with [root.after(0, ...)] does when it runs. *)
Definition run_callback (u : ui_update) (ws : Widgets) : Widgets :=
  match u with
  | UpdateUiForMovie details trailer poster =>
      _update_ui_for_movie details trailer poster ws
  | UpdateUiForGeneralQuery query => _update_ui_for_general_query query ws
  | AppendText text => _append_text text ws
  | EnableSearchButton => config_search_button true ws
  end.

(** The widgets after the trace of a handler: the scheduled callbacks run in
    the order they were scheduled. The status messages of the handler are
    set in trace order too, which is the schedule where each callback runs as
    soon as it is scheduled; the other widgets do not depend on that
    choice. *)
Fixpoint mainloop (t : list event) (ws : Widgets) : Widgets :=
  match t with
  | [] => ws
  | After u :: t' => mainloop t' (run_callback u ws)
  | Status message :: t' => mainloop t' (show_status message ws)
  | _ :: t' => mainloop t' ws
  end.

(** [process_query]: the widgets as the method leaves them, and the query
    it hands to the thread it starts ([None] when it starts none). The thread
    runs [_handle_query] beside the main loop; the method does not wait for
    it. *)
Definition process_query (ws : Widgets) : Widgets * option string :=
  let query := Py.strip (search_var ws) in
  if negb (Py.truthy query)
  then (show_status "Please enter a question or movie title" ws, None)
  else
    let ws := show_status "Processing query..." ws in
    let ws := config_search_button false ws in
    let ws := clear_info ws in
    (ws, Some query).

(** The entry holds [text]. *)
Definition typed (text : string) (ws : Widgets) : Widgets :=
  {| search_var := text; info_text := info_text ws;
     poster_label_text := poster_label_text ws;
     poster_label_image := poster_label_image ws;
     title_label := title_label ws; trailer_button := trailer_button ws;
     search_button := search_button ws; status_var := status_var ws |}.

End Ui.


(** The requests to the catalog, the search page and the image host. *)
Definition http_requests (t : list event) : list event :=
  filter (fun e => match e with HttpGet _ _ => true | _ => false end) t.

(** A trace that holds requests to the model and text for the display,
    nothing else. *)
Definition only_model_and_display (t : list event) : Prop :=
  Forall (fun e => match e with
                   | Generate _ _ => True
                   | After (AppendText _) => True
                   | _ => False
                   end) t.


(** The requests to the generative-text service. *)
Definition model_requests (t : list event) : list event :=
  filter (fun e => match e with Generate _ _ => true | _ => false end) t.

(** ** Scenarios *)

(** A world in which every service fails. *)
Definition offline : World :=
  {| TMDB_API_KEY := "k";
     generate_content := fun _ => Raised;
     generate_content_stream := fun _ => StreamRaised;
     tmdb_search := fun _ => RequestFailed;
     tmdb_details := fun _ => RequestFailed;
     web_search := fun _ => RequestFailed;
     poster_image := fun _ => false |}.

(** [offline], but the model answers every single-shot request with [text]. *)
Definition answering (text : string) : World :=
  {| TMDB_API_KEY := "k";
     generate_content := fun _ => Text text;
     generate_content_stream := fun _ => StreamRaised;
     tmdb_search := fun _ => RequestFailed;
     tmdb_details := fun _ => RequestFailed;
     web_search := fun _ => RequestFailed;
     poster_image := fun _ => false |}.

(** The catalog knows one film; its detail request fails when
    [details_status] is an error code. *)
Definition heat_summary : MovieSummary :=
  {| summary_id := 949; summary_title := "Heat";
     summary_release_date := Some "1995-12-15" |}.

Definition heat_details : MovieDetails :=
  {| title := Some "Heat"; release_date := Some "1995-12-15";
     overview := Some "A crew of thieves and a detective.";
     vote_average := Some "7.9"; genres := ["Crime"; "Drama"];
     runtime := Some 170%Z; budget := Some 60000000%Z;
     revenue := Some 187436818%Z;
     crew := [ {| crew_name := "Dante Spinotti"; crew_job := "Director of Photography" |};
               {| crew_name := "Michael Mann"; crew_job := "Director" |} ];
     cast := ["Al Pacino"; "Robert De Niro"];
     videos := Some [ {| video_site := "YouTube"; video_type := "Featurette"; video_key := "f1" |};
                      {| video_site := "YouTube"; video_type := "Trailer"; video_key := "t2" |};
                      {| video_site := "YouTube"; video_type := "Trailer"; video_key := "t3" |} ];
     poster_path := Some "/heat.jpg" |}.

Definition catalog_world (reply : Completion) (stream : Stream)
    (details_status : Z) : World :=
  {| TMDB_API_KEY := "k";
     generate_content := fun _ => reply;
     generate_content_stream := fun _ => stream;
     tmdb_search := fun query =>
       if query =? "heat" then Responded 200 [heat_summary] else Responded 200 [];
     tmdb_details := fun _ => Responded details_status heat_details;
     web_search := fun _ => RequestFailed;
     poster_image := fun _ => true |}.

(** The anchors of a search page: one without [href], one to another site,
    one whose watch URL has no id, and two watch URLs. *)
Definition search_page : list (option string) :=
  [ None;
    Some "/url?q=https://example.org/heat";
    Some "/url?q=https://www.youtube.com/watch?v=&sa=U";
    Some "/url?q=https://www.youtube.com/watch?v=abc123&sa=U";
    Some "https://www.youtube.com/watch?v=zzz" ].

(** [offline], but the web search answers with [search_page]. *)
Definition web_world : World :=
  {| TMDB_API_KEY := "k";
     generate_content := fun _ => Raised;
     generate_content_stream := fun _ => StreamRaised;
     tmdb_search := fun _ => RequestFailed;
     tmdb_details := fun _ => RequestFailed;
     web_search := fun _ => Responded 200 search_page;
     poster_image := fun _ => false |}.

(** The model streams ["He"], ["at"] and [" (1995)"]; the stream ends when
    [complete] holds and raises otherwise. Single-shot requests are answered
    with the same text in one piece. *)
Definition streaming_world (complete : bool) : World :=
  catalog_world (Text "Heat (1995)")
    (Chunk "He" (Chunk "at" (Chunk " (1995)"
       (if complete then StreamEnd else StreamRaised))))
    200.

(** * Properties *)

(** ** The text operations on examples *)

Example strip_ex : Py.strip "  movie: Heat  " = "movie: Heat".
Proof. reflexivity. Qed.

Example lower_ex : Py.lower "Movie: HEAT 2" = "movie: heat 2".
Proof. reflexivity. Qed.

Example replace_ex : Py.replace "abcabcab" "bc" "-" = "a-a-ab".
Proof. reflexivity. Qed.

Example replace_once_ex : Py.replace "movmovie:ie:x" "movie:" "" = "movie:x".
Proof. reflexivity. Qed.

Example format_thousands_ex :
  map Py.format_thousands [160000000; -1234; 0; 999; 1000]%Z
  = ["160,000,000"; "-1,234"; "0"; "999"; "1,000"].
Proof. reflexivity. Qed.

Example re_search_watch_ex :
  map re_search_watch
    [ "/url?q=https://www.youtube.com/watch?v=abc123&sa=U";
      "https://www.youtube.com/watch?v=&x=1";
      "https://www.youtube.com/watch";
      "youtube.com/watch?v=&youtube.com/watch?v=zz" ]
  = [ Some "abc123"; None; None; Some "zz" ].
Proof. reflexivity. Qed.

(** ** The writer monad *)

Lemma bind_ret_l {A B} (a : A) (f : A -> M B) : bind (ret a) f = f a.
Proof. unfold bind, ret. destruct (f a). reflexivity. Qed.

Lemma bind_fst {A B} (m : M A) (f : A -> M B) :
  fst (bind m f) = fst (f (fst m)).
Proof. unfold bind. destruct m as [a t1]. simpl. destruct (f a). reflexivity. Qed.

Lemma bind_snd {A B} (m : M A) (f : A -> M B) :
  snd (bind m f) = (snd m ++ snd (f (fst m)))%list.
Proof. unfold bind. destruct m as [a t1]. simpl. destruct (f a). reflexivity. Qed.

Lemma bind_tell {B} (e : event) (k : M B) :
  (tell e ;;; k) = (fst k, e :: snd k).
Proof. unfold bind, tell. destruct k. reflexivity. Qed.

(** ** Classification *)

(** C7. A query classified as general keeps its text: whenever
    [process_user_query] answers ["general"], the refined query is the
    original query, character for character, and the service had replied
    with a text that, stripped and lowercased, does not start with
    ["movie:"]. What the service echoed after its marker is not used. *)
Theorem general_classification_keeps_query (w : World) (query kind refined : string) :
  fst (process_user_query w query) = (kind, refined) ->
  kind = "general" ->
  refined = query
  /\ exists text, generate_content w (classification_prompt query) = Text text
                  /\ Py.startswith (Py.lower (Py.strip text)) "movie:" = false.
Proof.
  unfold process_user_query. rewrite bind_tell. simpl.
  destruct (generate_content w (classification_prompt query)) as [text|] eqn:Hreply.
  - destruct (Py.startswith (Py.lower (Py.strip text)) "movie:") eqn:Hmarker;
      simpl; intros Hpair Hkind; inversion Hpair; subst.
    + discriminate.
    + split; [reflexivity | exists text; split; [reflexivity | assumption]].
  - simpl. intros Hpair Hkind. inversion Hpair; subst. discriminate.
Qed.

Lemma general_classification_keeps_query_witness :
  let w := answering "General: what is FILM NOIR" in
  fst (process_user_query w "What is film noir?")
  = ("general", "What is film noir?")
  /\ exists text,
       generate_content w (classification_prompt "What is film noir?") = Text text
       /\ Py.startswith (Py.lower (Py.strip text)) "movie:" = false.
Proof.
  cbv zeta. split; [reflexivity|].
  exact (proj2 (general_classification_keeps_query
                  (answering "General: what is FILM NOIR") "What is film noir?"
                  "general" "What is film noir?" eq_refl eq_refl)).
Defined.

(** C8. When the generative-text service raises during classification,
    [process_user_query] returns [("movie", query)] with the original query:
    the exception is absorbed, the one request made is all the trace shows. *)
Theorem classification_failure_defaults_to_movie (w : World) (query : string) :
  generate_content w (classification_prompt query) = Raised ->
  process_user_query w query
  = (("movie", query), [Generate (classification_prompt query) false]).
Proof.
  intros Hreply. unfold process_user_query. rewrite bind_tell, Hreply.
  reflexivity.
Qed.

Lemma classification_failure_defaults_to_movie_witness :
  process_user_query offline "Heat"
  = (("movie", "Heat"), [Generate (classification_prompt "Heat") false]).
Proof.
  apply (classification_failure_defaults_to_movie offline "Heat"). reflexivity.
Defined.

Lemma replace_without_occurrence (old s : string) :
  Py.contains old s = false -> Py.replace_from 0 old "" s = s.
Proof.
  induction s as [|c r IH]; intros Hnone; [reflexivity|].
  cbn [Py.contains] in Hnone. apply orb_false_iff in Hnone.
  destruct Hnone as [Hhere Hlater].
  cbn [Py.replace_from]. rewrite Hhere, IH by assumption. reflexivity.
Qed.

Lemma prefix_empty (s : string) : prefix "" s = true.
Proof. destruct s; reflexivity. Qed.

Lemma prefix_append (p s : string) : prefix p (p ++ s) = true.
Proof.
  induction p as [|c p IH]; [apply prefix_empty|].
  cbn [append prefix]. destruct (ascii_dec c c) as [_|Hneq]; [exact IH|].
  now elim Hneq.
Qed.

Lemma replace_skips (p old new rest : string) :
  Py.replace_from (String.length p) old new (p ++ rest)
  = Py.replace_from 0 old new rest.
Proof. induction p as [|c p IH]; [reflexivity | exact IH]. Qed.

Lemma replace_at_head (old new rest : string) :
  old <> "" ->
  Py.replace_from 0 old new (old ++ rest) = new ++ Py.replace_from 0 old new rest.
Proof.
  destruct old as [|c p]; [congruence | intros _].
  change (String c p ++ rest) with (String c (p ++ rest)).
  cbn [Py.replace_from].
  change (String c (p ++ rest)) with (String c p ++ rest).
  rewrite prefix_append. f_equal.
  cbn [String.length Nat.sub]. rewrite Nat.sub_0_r. apply replace_skips.
Qed.

Lemma substring_all (s : string) : substring 0 (String.length s) s = s.
Proof. induction s as [|c r IH]; simpl; [|rewrite IH]; reflexivity. Qed.

(** When the marker occurs only at the head of the lowercased reply, the
    refined title of the code is the trailing text. *)
Lemma refined_title_when_marker_once (w : World) (query text rest : string) :
  generate_content w (classification_prompt query) = Text text ->
  Py.lower (Py.strip text) = "movie:" ++ rest ->
  Py.contains "movie:" rest = false ->
  fst (process_user_query w query) = ("movie", trailing_title text)
  /\ trailing_title text = Py.strip rest.
Proof.
  intros Hreply Hlower Hnone.
  assert (Htrail : trailing_title text = Py.strip rest).
  { unfold trailing_title. rewrite Hlower. f_equal.
    cbn [append String.length Nat.sub substring]. rewrite Nat.sub_0_r.
    apply substring_all. }
  split; [|exact Htrail].
  unfold process_user_query. rewrite bind_tell, Hreply, Hlower, Htrail.
  cbn [fst]. unfold Py.startswith.
  rewrite prefix_append.
  cbn [fst ret]. do 2 f_equal. unfold Py.replace.
  rewrite (replace_at_head "movie:" "" rest) by discriminate.
  apply replace_without_occurrence. exact Hnone.
Qed.

Lemma lower_char_idempotent (c : ascii) :
  Py.lower_char (Py.lower_char c) = Py.lower_char c.
Proof.
  destruct c as [[] [] [] [] [] [] [] []]; vm_compute; reflexivity.
Qed.

Lemma lower_idempotent (s : string) : Py.lower (Py.lower s) = Py.lower s.
Proof.
  induction s as [|c r IH]; [reflexivity|].
  cbn [Py.lower]. rewrite lower_char_idempotent, IH. reflexivity.
Qed.

Lemma lower_cons (c : ascii) (r : string) :
  Py.lower (String c r) = String c r -> Py.lower_char c = c /\ Py.lower r = r.
Proof. cbn [Py.lower]. intros [= Hc Hr]. split; assumption. Qed.

Lemma lstrip_keeps_lower (s : string) :
  Py.lower s = s -> Py.lower (Py.lstrip s) = Py.lstrip s.
Proof.
  induction s as [|c r IH]; [reflexivity|]. intros Hs.
  destruct (lower_cons _ _ Hs) as [_ Hr]. cbn [Py.lstrip].
  destruct (Py.isspace c); [exact (IH Hr) | exact Hs].
Qed.

Lemma rstrip_keeps_lower (s : string) :
  Py.lower s = s -> Py.lower (Py.rstrip s) = Py.rstrip s.
Proof.
  induction s as [|c r IH]; [reflexivity|]. intros Hs.
  destruct (lower_cons _ _ Hs) as [Hc Hr]. cbn [Py.rstrip].
  specialize (IH Hr). destruct (Py.rstrip r) as [|d r'].
  - destruct (Py.isspace c); [reflexivity|]. cbn [Py.lower]. rewrite Hc.
    reflexivity.
  - cbn [Py.lower] in IH |- *. rewrite Hc. f_equal. exact IH.
Qed.

Lemma removal_keeps_lower (old s : string) (skip : nat) :
  Py.lower s = s ->
  Py.lower (Py.replace_from skip old "" s) = Py.replace_from skip old "" s.
Proof.
  revert skip. induction s as [|c r IH]; intros skip Hs; [reflexivity|].
  destruct (lower_cons _ _ Hs) as [Hc Hr]. cbn [Py.replace_from].
  destruct skip as [|k]; [|exact (IH k Hr)].
  destruct (prefix old (String c r)).
  - cbn [append]. exact (IH _ Hr).
  - cbn [Py.lower]. rewrite Hc, (IH 0 Hr). reflexivity.
Qed.

(** The refined title of a movie classification from a reply of the service
    is lowercase and stripped text: lowering it again changes nothing. *)
Lemma refined_title_is_lowercase (w : World) (query text refined : string) :
  generate_content w (classification_prompt query) = Text text ->
  fst (process_user_query w query) = ("movie", refined) ->
  Py.lower refined = refined.
Proof.
  intros Hreply. unfold process_user_query. rewrite bind_tell, Hreply.
  cbn [fst]. destruct (Py.startswith _ "movie:"); cbn [fst ret];
    [|discriminate].
  intros [= <-]. unfold Py.strip, Py.replace.
  apply rstrip_keeps_lower, lstrip_keeps_lower, removal_keeps_lower,
    lower_idempotent.
Qed.

(** C10. The refined title of a movie classification is meant to be the
    stripped, lowercased text that trails the marker. [str.replace] removes
    every occurrence of ["movie:"], though, not the leading one alone: for the
    reply ["movie: The SpongeBob Movie: Sponge Out of Water"] the code returns
    ["the spongebob  sponge out of water"], which is not the trailing text
    ["the spongebob movie: sponge out of water"]. *)
Theorem refined_title_loses_inner_marker :
  let reply := "movie: The SpongeBob Movie: Sponge Out of Water" in
  fst (process_user_query (answering reply) "spongebob movie")
  = ("movie", "the spongebob  sponge out of water")
  /\ trailing_title reply = "the spongebob movie: sponge out of water"
  /\ snd (fst (process_user_query (answering reply) "spongebob movie"))
     <> trailing_title reply.
Proof.
  cbv zeta. split; [reflexivity|]. split; [reflexivity|].
  vm_compute. discriminate.
Qed.

(** ** Catalog search *)

(** C9. [search_movie] returns the first element of the [results] array when
    the request succeeds with a non-empty array, and [None] in every other
    case: an empty array, an error status and a failed request are not told
    apart. *)
Theorem search_movie_first_or_none (w : World) (query : string) :
  fst (search_movie w query)
  = match tmdb_search w query with
    | Responded status (first :: _) =>
        if raises_for_status status then None else Some first
    | Responded _ [] => None
    | RequestFailed => None
    end.
Proof.
  unfold search_movie. rewrite bind_tell. cbn [fst].
  destruct (tmdb_search w query) as [|status results]; [reflexivity|].
  destruct (raises_for_status status); destruct results; reflexivity.
Qed.

(** ** Trailer resolution *)

Lemma append_assoc (a b c : string) : (a ++ b) ++ c = a ++ (b ++ c).
Proof. induction a as [|x a IH]; simpl; [|rewrite IH]; reflexivity. Qed.

Lemma contains_unfold (sub s : string) :
  Py.contains sub s
  = (prefix sub s || match s with "" => false | String _ r => Py.contains sub r end).
Proof. destruct s; reflexivity. Qed.

Lemma contains_append (sub before after : string) :
  Py.contains sub (before ++ sub ++ after) = true.
Proof.
  induction before as [|c b IH].
  - cbn [append]. rewrite contains_unfold, prefix_append. reflexivity.
  - cbn [append Py.contains]. rewrite IH. apply orb_true_r.
Qed.

Lemma prefix_split (p s : string) :
  prefix p s = true -> exists rest, s = p ++ rest.
Proof.
  revert s. induction p as [|c p IH]; intros s Hp.
  - exists s. reflexivity.
  - destruct s as [|d s]; [discriminate|].
    cbn [prefix] in Hp. destruct (ascii_dec c d) as [->|]; [|discriminate].
    destruct (IH s Hp) as [rest ->]. exists rest. reflexivity.
Qed.

Lemma until_ampersand_split (s : string) :
  exists after, s = until_ampersand s ++ after.
Proof.
  induction s as [|c r [after IH]]; [exists ""; reflexivity|].
  cbn [until_ampersand]. destruct (Ascii.eqb c "&").
  - exists (String c r). reflexivity.
  - exists after. cbn [append]. rewrite <- IH. reflexivity.
Qed.

Lemma until_ampersand_clean (s : string) :
  Py.contains "&" (until_ampersand s) = false.
Proof.
  induction s as [|c r IH]; [reflexivity|].
  cbn [until_ampersand]. destruct (Ascii.eqb c "&") eqn:Hc; [reflexivity|].
  cbn [Py.contains prefix]. rewrite IH.
  destruct (ascii_dec "&" c) as [<-|]; [discriminate Hc|reflexivity].
Qed.

Lemma until_ampersand_head (video_id after : string) :
  video_id <> "" -> Py.contains "&" video_id = false ->
  Py.truthy (until_ampersand (video_id ++ after)) = true.
Proof.
  destruct video_id as [|c r]; [congruence|]. intros _ Hclean.
  cbn [append until_ampersand].
  destruct (Ascii.eqb_spec c "&") as [->|_]; [|reflexivity].
  rewrite contains_unfold in Hclean.
  change (String "&" r) with ("&" ++ r) in Hclean.
  rewrite prefix_append in Hclean. discriminate Hclean.
Qed.

Lemma re_search_watch_unfold (href : string) :
  re_search_watch href
  = let here :=
      if prefix "youtube.com/watch?v=" href
      then until_ampersand (substring 20 (String.length href - 20) href)
      else "" in
    if Py.truthy here then Some here
    else match href with
         | "" => None
         | String _ r => re_search_watch r
         end.
Proof. destruct href; reflexivity. Qed.

Lemma after_watch_literal (rest : string) :
  substring 20 (String.length ("youtube.com/watch?v=" ++ rest) - 20)
    ("youtube.com/watch?v=" ++ rest) = rest.
Proof.
  cbn [append String.length Nat.sub substring].
  rewrite Nat.sub_0_r. apply substring_all.
Qed.

Lemma watch_here_sound (href : string) :
  let here :=
    if prefix "youtube.com/watch?v=" href
    then until_ampersand (substring 20 (String.length href - 20) href)
    else "" in
  Py.truthy here = true -> watch_pattern href here.
Proof.
  cbv zeta. destruct (prefix "youtube.com/watch?v=" href) eqn:Hp;
    [|discriminate].
  destruct (prefix_split _ _ Hp) as [rest ->]. rewrite after_watch_literal.
  intros Hhere. destruct (until_ampersand_split rest) as [after Hafter].
  exists "", after. split; [|split].
  - rewrite Hafter at 1. reflexivity.
  - intros Hempty. rewrite Hempty in Hhere. discriminate Hhere.
  - apply until_ampersand_clean.
Qed.

(** What [re.search] finds fits the pattern. *)
Lemma re_search_watch_sound (href video_id : string) :
  re_search_watch href = Some video_id -> watch_pattern href video_id.
Proof.
  induction href as [|c r IH]; [discriminate|].
  rewrite re_search_watch_unfold.
  pose proof (watch_here_sound (String c r)) as Hsound. cbv zeta in Hsound |- *.
  destruct (Py.truthy _) eqn:Hhere.
  - intros Hsome. apply (f_equal (fun o => match o with Some x => x | None => "" end)) in Hsome.
    cbv beta iota in Hsome. rewrite <- Hsome. apply Hsound. reflexivity.
  - intros Hlater. destruct (IH Hlater) as (before & after & -> & Hne & Hclean).
    exists (String c before), after. repeat split; assumption.
Qed.

(** A text that fits the pattern is found by [re.search]. *)
Lemma re_search_watch_complete (href video_id : string) :
  watch_pattern href video_id -> re_search_watch href <> None.
Proof.
  intros (before & after & -> & Hne & Hclean).
  induction before as [|c b IH].
  - change (re_search_watch ("youtube.com/watch?v=" ++ video_id ++ after) <> None).
    rewrite re_search_watch_unfold. cbv zeta.
    rewrite prefix_append, after_watch_literal.
    rewrite (until_ampersand_head _ _ Hne Hclean). discriminate.
  - rewrite re_search_watch_unfold. cbv zeta.
    destruct (Py.truthy _); [discriminate | exact IH].
Qed.

Lemma find_first {A} (f : A -> bool) (before after : list A) (x : A) :
  Forall (fun a => f a = false) before -> f x = true ->
  List.find f (before ++ x :: after)%list = Some x.
Proof.
  intros Hbefore Hx. induction Hbefore as [|a l Ha _ IH]; simpl.
  - rewrite Hx. reflexivity.
  - rewrite Ha. exact IH.
Qed.

Lemma first_match_split {A} (f : A -> bool) (l : list A) :
  (exists x, In x l /\ f x = true) ->
  exists before x after,
    l = (before ++ x :: after)%list
    /\ Forall (fun a => f a = false) before
    /\ f x = true.
Proof.
  induction l as [|a l IH]; intros (x & Hin & Hx); [destruct Hin|].
  destruct (f a) eqn:Ha.
  - exists [], a, l. repeat split; [constructor | exact Ha].
  - destruct Hin as [-> | Hin]; [congruence|].
    destruct (IH (ex_intro _ x (conj Hin Hx)))
      as (before & y & after & -> & Hbefore & Hy).
    exists (a :: before), y, after. repeat split; [|exact Hy].
    constructor; assumption.
Qed.

Lemma metadata_tier_at_first_match (w : World) (movie_title : string)
    (year : option string) (details : MovieDetails)
    (before after : list Video) (video : Video) :
  videos details = Some (before ++ video :: after)%list ->
  Forall (fun v => is_youtube_trailer v = false) before ->
  is_youtube_trailer video = true ->
  find_trailer w movie_title year (Some details)
  = (Some {| trailer_title := movie_title ++ " Official Trailer";
             trailer_url := "https://www.youtube.com/watch?v=" ++ video_key video;
             trailer_video_id := video_key video |},
     []).
Proof.
  intros Hvideos Hbefore Hvideo.
  assert (Hfound : tmdb_trailer_video (Some details) = Some video).
  { unfold tmdb_trailer_video. rewrite Hvideos.
    assert (Hfind : List.find is_youtube_trailer (before ++ video :: after)%list
                    = Some video)
      by (apply find_first; assumption).
    destruct (before ++ video :: after)%list; [discriminate Hfind | exact Hfind]. }
  unfold find_trailer. rewrite Hfound. reflexivity.
Qed.

(** C5. When the video list of the details holds an entry with site
    ["YouTube"] and type ["Trailer"], [find_trailer] returns the first such
    entry of the list, titled ["<title> Official Trailer"], with the watch URL
    of its key. The trace is empty: no web search is made, so the result is
    the same in every world, whatever the fallback tier would have
    answered. *)
Theorem metadata_tier_returns_first_trailer (w : World) (movie_title : string)
    (year : option string) (details : MovieDetails) (results : list Video) :
  videos details = Some results ->
  (exists v, In v results
             /\ video_site v = "YouTube" /\ video_type v = "Trailer") ->
  exists before video after,
    results = (before ++ video :: after)%list
    /\ Forall (fun v => video_site v <> "YouTube" \/ video_type v <> "Trailer")
         before
    /\ video_site video = "YouTube"
    /\ video_type video = "Trailer"
    /\ forall w' : World,
         find_trailer w' movie_title year (Some details)
         = (Some {| trailer_title := movie_title ++ " Official Trailer";
                    trailer_url := "https://www.youtube.com/watch?v="
                                   ++ video_key video;
                    trailer_video_id := video_key video |},
            [])
         /\ find_trailer w' movie_title year (Some details)
            = find_trailer w movie_title year (Some details).
Proof.
  intros Hvideos (v & Hin & Hsite & Htype).
  assert (Hsome : exists x, In x results /\ is_youtube_trailer x = true).
  { exists v. split; [exact Hin|]. unfold is_youtube_trailer.
    rewrite Hsite, Htype. reflexivity. }
  destruct (first_match_split _ _ Hsome)
    as (before & video & after & -> & Hbefore & Hvideo).
  exists before, video, after. split; [reflexivity|].
  unfold is_youtube_trailer in Hvideo. apply andb_true_iff in Hvideo.
  destruct Hvideo as [Hs Ht]. apply String.eqb_eq in Hs, Ht.
  split.
  { eapply Forall_impl; [|exact Hbefore]. intros a Ha.
    unfold is_youtube_trailer in Ha. apply andb_false_iff in Ha.
    destruct Ha as [Ha|Ha]; apply String.eqb_neq in Ha; auto. }
  split; [exact Hs|]. split; [exact Ht|].
  assert (Hmatch : is_youtube_trailer video = true).
  { unfold is_youtube_trailer. rewrite Hs, Ht. reflexivity. }
  intros w'.
  rewrite (metadata_tier_at_first_match w' _ _ _ _ _ _ Hvideos Hbefore Hmatch).
  rewrite (metadata_tier_at_first_match w _ _ _ _ _ _ Hvideos Hbefore Hmatch).
  split; reflexivity.
Qed.

Lemma metadata_tier_returns_first_trailer_witness :
  videos heat_details
  = Some [ {| video_site := "YouTube"; video_type := "Featurette"; video_key := "f1" |};
           {| video_site := "YouTube"; video_type := "Trailer"; video_key := "t2" |};
           {| video_site := "YouTube"; video_type := "Trailer"; video_key := "t3" |} ]
  /\ find_trailer web_world "Heat" (Some "1995") (Some heat_details)
     = find_trailer offline "Heat" (Some "1995") (Some heat_details)
  /\ find_trailer offline "Heat" (Some "1995") (Some heat_details)
     = (Some {| trailer_title := "Heat Official Trailer";
                trailer_url := "https://www.youtube.com/watch?v=t2";
                trailer_video_id := "t2" |},
        []).
Proof.
  split; [reflexivity|].
  destruct (metadata_tier_returns_first_trailer offline "Heat" (Some "1995")
              heat_details _ eq_refl
              (ex_intro _
                 {| video_site := "YouTube"; video_type := "Trailer"; video_key := "t3" |}
                 (conj (or_intror (or_intror (or_introl eq_refl)))
                       (conj eq_refl eq_refl))))
    as (before & video & after & _ & _ & _ & _ & Hsame).
  split; [exact (proj2 (Hsame web_world)) | reflexivity].
Defined.

Lemma flat_map_nil {A B} (f : A -> list B) (l : list A) :
  flat_map f l = [] -> Forall (fun a => f a = []) l.
Proof.
  induction l as [|a l IH]; simpl; intros Hnil; [constructor|].
  apply app_eq_nil in Hnil. destruct Hnil as [Ha Hl].
  constructor; [exact Ha | exact (IH Hl)].
Qed.

Lemma flat_map_head {A B} (f : A -> list B) (l : list A) (x : B) (rest : list B) :
  flat_map f l = x :: rest ->
  exists earlier a later tail,
    l = (earlier ++ a :: later)%list
    /\ Forall (fun b => f b = []) earlier
    /\ f a = x :: tail.
Proof.
  induction l as [|a l IH]; simpl; [discriminate|].
  destruct (f a) as [|y tail] eqn:Ha.
  - simpl. intros Hrest. destruct (IH Hrest) as (earlier & a' & later & tail & -> & Hearlier & Ha').
    exists (a :: earlier), a', later, tail. repeat split; try assumption.
    constructor; assumption.
  - simpl. intros [= -> _]. exists [], a, l, tail. repeat split; [constructor | exact Ha].
Qed.

Lemma watch_pattern_contains (href video_id : string) :
  watch_pattern href video_id -> Py.contains "youtube.com/watch" href = true.
Proof.
  intros (before & after & -> & _).
  change ("youtube.com/watch?v=" ++ video_id ++ after)
    with ("youtube.com/watch" ++ ("?v=" ++ video_id ++ after)).
  apply contains_append.
Qed.

Lemma youtube_link_nil (movie_title : string) (link : option string) :
  youtube_link movie_title link = [] -> no_watch_link link.
Proof.
  intros Hnil href video_id -> Hpattern. unfold youtube_link in Hnil.
  rewrite (watch_pattern_contains _ _ Hpattern) in Hnil.
  pose proof (re_search_watch_complete _ _ Hpattern) as Hfound.
  destruct (re_search_watch href); [discriminate Hnil | now elim Hfound].
Qed.

Lemma youtube_link_cons (movie_title : string) (link : option string)
    (info : TrailerInfo) (tail : list TrailerInfo) :
  youtube_link movie_title link = info :: tail ->
  exists href,
    link = Some href
    /\ watch_pattern href (trailer_video_id info)
    /\ trailer_title info = movie_title ++ " Trailer"
    /\ trailer_url info
       = "https://www.youtube.com/watch?v=" ++ trailer_video_id info.
Proof.
  unfold youtube_link. destruct link as [href|]; [|discriminate].
  destruct (Py.contains "youtube.com/watch" href); [|discriminate].
  destruct (re_search_watch href) as [video_id|] eqn:Hfound; [|discriminate].
  intros [= <- _]. exists href. cbn.
  repeat split. apply re_search_watch_sound. exact Hfound.
Qed.

Lemma trailer_search_query_shape (movie_title : string) (year : option string) :
  trailer_search_query movie_title year
  = match year with
    | Some y =>
        if Py.truthy y then movie_title ++ " official trailer " ++ y
        else movie_title ++ " official trailer"
    | None => movie_title ++ " official trailer"
    end.
Proof.
  unfold trailer_search_query. destruct year as [y|]; [|reflexivity].
  destruct (Py.truthy y); [|reflexivity]. rewrite append_assoc. reflexivity.
Qed.

(** C6. When the metadata tier yields nothing, [find_trailer] makes one web
    search, for ["<title> official trailer"] followed by a space and the year
    when a non-empty year is given. A trailer it returns is titled
    ["<title> Trailer"] and comes from the first link of the page whose
    [href] holds [youtube.com/watch?v=<id>]: its id is that [<id>], its URL is
    rebuilt from the id, and no earlier link fits the pattern. It returns
    [None] exactly when the request fails, the status is an error, or no link
    fits the pattern. *)
Theorem fallback_tier_first_watch_link (w : World) (movie_title : string)
    (year : option string) (movie_data : option MovieDetails) :
  tmdb_trailer_video movie_data = None ->
  let search_query :=
    match year with
    | Some y =>
        if Py.truthy y then movie_title ++ " official trailer " ++ y
        else movie_title ++ " official trailer"
    | None => movie_title ++ " official trailer"
    end in
  let url := "https://www.google.com/search?q=" ++ search_query
             ++ "+site:youtube.com" in
  snd (find_trailer w movie_title year movie_data) = [HttpGet url []]
  /\ match fst (find_trailer w movie_title year movie_data) with
     | Some info =>
         trailer_title info = movie_title ++ " Trailer"
         /\ trailer_url info
            = "https://www.youtube.com/watch?v=" ++ trailer_video_id info
         /\ exists status earlier href later,
              web_search w url
              = Responded status (earlier ++ Some href :: later)%list
              /\ raises_for_status status = false
              /\ watch_pattern href (trailer_video_id info)
              /\ Forall no_watch_link earlier
     | None =>
         web_search w url = RequestFailed
         \/ exists status links,
              web_search w url = Responded status links
              /\ (raises_for_status status = true \/ Forall no_watch_link links)
     end.
Proof.
  intros Hnone. cbv zeta. rewrite <- trailer_search_query_shape.
  fold (trailer_search_url (trailer_search_query movie_title year)).
  unfold find_trailer. rewrite Hnone, bind_tell.
  set (url := trailer_search_url (trailer_search_query movie_title year)).
  cbn [fst snd].
  destruct (web_search w url) as [|status links] eqn:Hweb.
  { split; [reflexivity | left; reflexivity]. }
  destruct (raises_for_status status) eqn:Hstatus.
  { split; [reflexivity|]. right. exists status, links. auto. }
  destruct (flat_map (youtube_link movie_title) links) as [|info rest] eqn:Hlinks.
  { split; [reflexivity|]. right. exists status, links.
    split; [reflexivity|]. right.
    apply flat_map_nil in Hlinks.
    eapply Forall_impl; [|exact Hlinks]. intros link. apply youtube_link_nil. }
  split; [reflexivity|]. cbn [fst].
  apply flat_map_head in Hlinks.
  destruct Hlinks as (earlier & link & later & tail & -> & Hearlier & Hlink).
  apply youtube_link_cons in Hlink.
  destruct Hlink as (href & -> & Hpattern & Htitle & Hurl).
  split; [exact Htitle|]. split; [exact Hurl|].
  exists status, earlier, href, later. repeat split; try assumption.
  eapply Forall_impl; [|exact Hearlier]. intros link. apply youtube_link_nil.
Qed.

Lemma fallback_tier_first_watch_link_witness :
  tmdb_trailer_video None = None
  /\ find_trailer web_world "Heat" (Some "1995") None
     = (Some {| trailer_title := "Heat Trailer";
                trailer_url := "https://www.youtube.com/watch?v=abc123";
                trailer_video_id := "abc123" |},
        [HttpGet "https://www.google.com/search?q=Heat official trailer 1995+site:youtube.com" []])
  /\ snd (find_trailer web_world "Heat" (Some "1995") None)
     = [HttpGet "https://www.google.com/search?q=Heat official trailer 1995+site:youtube.com" []].
Proof.
  split; [reflexivity|]. split; [reflexivity|].
  exact (proj1 (fallback_tier_first_watch_link web_world "Heat" (Some "1995")
                  None eq_refl)).
Defined.

(** ** Synthesis *)

Lemma append_empty_r (s : string) : s ++ "" = s.
Proof. induction s as [|c r IH]; cbn; [|rewrite IH]; reflexivity. Qed.

Lemma concat_cons (piece : string) (pieces : list string) :
  String.concat "" (piece :: pieces) = piece ++ String.concat "" pieces.
Proof.
  destruct pieces; cbn [String.concat]; [|reflexivity].
  symmetry. apply append_empty_r.
Qed.

Lemma stream_loop_spec (callback : string -> M unit) (chunks : Stream)
    (response_text : string) :
  stream_loop callback chunks response_text
  = (if stream_completes chunks
     then Some (response_text ++ String.concat "" (stream_pieces chunks))
     else None,
     flat_map (fun piece => snd (callback piece)) (stream_pieces chunks)).
Proof.
  revert response_text.
  induction chunks as [| |piece rest IH]; intros response_text.
  - cbn. rewrite append_empty_r. reflexivity.
  - reflexivity.
  - cbn [stream_loop stream_completes stream_pieces flat_map].
    unfold bind. destruct (callback piece) as [[] t]. rewrite IH. cbn [snd].
    f_equal. destruct (stream_completes rest); [|reflexivity].
    rewrite concat_cons, append_assoc. reflexivity.
Qed.

Lemma try_generate_streaming (w : World) (prompt : string)
    (callback : string -> M unit) :
  let chunks := generate_content_stream w prompt in
  try_generate w prompt true (Some callback)
  = (if stream_completes chunks
     then Some (String.concat "" (stream_pieces chunks))
     else None,
     Generate prompt true
       :: flat_map (fun piece => snd (callback piece)) (stream_pieces chunks)).
Proof.
  cbv zeta. unfold try_generate. rewrite bind_tell, stream_loop_spec.
  reflexivity.
Qed.

Lemma try_generate_single_shot (w : World) (prompt : string)
    (streaming : bool) (callback : Callback) :
  streaming = false \/ callback = None ->
  try_generate w prompt streaming callback
  = (match generate_content w prompt with
     | Text text => Some text
     | Raised => None
     end,
     [Generate prompt false]).
Proof.
  intros Hmode. unfold try_generate.
  assert (Hbranch :
    match streaming, callback with
    | true, Some cb =>
        tell (Generate prompt true) ;;;
        stream_loop cb (generate_content_stream w prompt) ""
    | _, _ =>
        tell (Generate prompt false) ;;;
        match generate_content w prompt with
        | Text text => ret (Some text)
        | Raised => ret None
        end
    end
    = (tell (Generate prompt false) ;;;
       match generate_content w prompt with
       | Text text => ret (Some text)
       | Raised => ret None
       end)).
  { destruct Hmode as [-> | ->]; [reflexivity|]. destruct streaming; reflexivity. }
  rewrite Hbranch, bind_tell.
  destruct (generate_content w prompt); reflexivity.
Qed.

Lemma sink_fragments_app (t1 t2 : list event) :
  sink_fragments (t1 ++ t2) = (sink_fragments t1 ++ sink_fragments t2)%list.
Proof.
  induction t1 as [|e t1 IH]; [reflexivity|].
  destruct e; cbn [app sink_fragments]; rewrite IH; reflexivity.
Qed.

Lemma sink_fragments_recorded (pieces : list string) :
  sink_fragments (flat_map (fun piece => snd (recording_sink piece)) pieces)
  = pieces.
Proof.
  induction pieces as [|piece rest IH]; [reflexivity|].
  cbn in IH |- *. rewrite IH. reflexivity.
Qed.

(** What a synthesis call makes of its attempt, for both methods. *)
Lemma synthesis_of_attempt (attempt : M (option string)) (fallback : string)
    (callback : Callback) :
  (attempt <- attempt ;;
   match attempt with
   | Some response_text => ret response_text
   | None => deliver_fallback fallback callback
   end)
  = match fst attempt with
    | Some response_text => (response_text, snd attempt)
    | None =>
        (fallback,
         (snd attempt ++ match callback with
                         | Some cb => snd (cb fallback)
                         | None => []
                         end)%list)
    end.
Proof.
  destruct attempt as [[text|] t]; cbn.
  - rewrite app_nil_r. reflexivity.
  - destruct callback as [cb|]; cbn; [|reflexivity].
    destruct (cb fallback) as [[] t']. cbn. rewrite app_nil_r. reflexivity.
Qed.

(** C4. A streaming synthesis call whose stream ends without an exception
    passes to the sink exactly the fragments of the stream, in their order,
    and returns their concatenation; when the single-shot answer to the same
    prompt is that concatenation, the single-shot call returns the same text.
    This holds for [generate_movie_response] and for
    [generate_general_response]. *)
Theorem streaming_returns_what_the_sink_received (w : World)
    (movie_data : MovieDetails) (trailer_info : option TrailerInfo)
    (query : string) :
  let movie_request := movie_prompt (make_context movie_data trailer_info) in
  let movie_stream := generate_content_stream w movie_request in
  let general_stream := generate_content_stream w (general_prompt query) in
  (stream_completes movie_stream = true ->
   let result := generate_movie_response w movie_data trailer_info true
                   (Some recording_sink) in
   sink_fragments (snd result) = stream_pieces movie_stream
   /\ fst result = String.concat "" (sink_fragments (snd result))
   /\ (generate_content w movie_request
       = Text (String.concat "" (stream_pieces movie_stream)) ->
       fst (generate_movie_response w movie_data trailer_info false None)
       = fst result))
  /\ (stream_completes general_stream = true ->
      let result := generate_general_response w query true
                      (Some recording_sink) in
      sink_fragments (snd result) = stream_pieces general_stream
      /\ fst result = String.concat "" (sink_fragments (snd result))
      /\ (generate_content w (general_prompt query)
          = Text (String.concat "" (stream_pieces general_stream)) ->
          fst (generate_general_response w query false None) = fst result)).
Proof.
  cbv zeta. split; intros Hcomplete.
  - unfold generate_movie_response.
    rewrite !synthesis_of_attempt, try_generate_streaming.
    rewrite (try_generate_single_shot w _ false None) by (left; reflexivity).
    cbv zeta. rewrite Hcomplete. cbn [fst snd sink_fragments].
    rewrite sink_fragments_recorded.
    split; [reflexivity|]. split; [reflexivity|].
    intros ->. reflexivity.
  - unfold generate_general_response.
    rewrite !synthesis_of_attempt, try_generate_streaming.
    rewrite (try_generate_single_shot w _ false None) by (left; reflexivity).
    cbv zeta. rewrite Hcomplete. cbn [fst snd sink_fragments].
    rewrite sink_fragments_recorded.
    split; [reflexivity|]. split; [reflexivity|].
    intros ->. reflexivity.
Qed.

Lemma streaming_returns_what_the_sink_received_witness :
  let w := streaming_world true in
  stream_completes (generate_content_stream w (general_prompt "film noir")) = true
  /\ sink_fragments
       (snd (generate_general_response w "film noir" true (Some recording_sink)))
     = ["He"; "at"; " (1995)"]
  /\ fst (generate_general_response w "film noir" true (Some recording_sink))
     = "Heat (1995)"
  /\ fst (generate_general_response w "film noir" false None) = "Heat (1995)".
Proof.
  cbv zeta.
  pose proof (proj2 (streaming_returns_what_the_sink_received
                       (streaming_world true) heat_details None "film noir")
                eq_refl) as (Hsink & Htext & Hsingle).
  split; [reflexivity|]. split; [exact Hsink|].
  split; [rewrite Htext, Hsink; reflexivity|].
  rewrite (Hsingle eq_refl), Htext, Hsink. reflexivity.
Defined.

Lemma try_generate_fails (w : World) (prompt : string) (streaming : bool)
    (callback : Callback) :
  service_fails w prompt streaming callback = true ->
  fst (try_generate w prompt streaming callback) = None.
Proof.
  unfold service_fails.
  destruct streaming; [destruct callback as [cb|]|].
  - rewrite try_generate_streaming. cbv zeta. cbn [fst].
    destruct (stream_completes _); [discriminate | reflexivity].
  - rewrite try_generate_single_shot by (right; reflexivity). cbn [fst].
    destruct (generate_content w prompt); [discriminate | reflexivity].
  - rewrite try_generate_single_shot by (left; reflexivity). cbn [fst].
    destruct callback; destruct (generate_content w prompt);
      try discriminate; reflexivity.
Qed.

Lemma try_generate_recorded (w : World) (prompt : string) (streaming : bool) :
  sink_fragments (snd (try_generate w prompt streaming (Some recording_sink)))
  = if streaming then stream_pieces (generate_content_stream w prompt) else [].
Proof.
  destruct streaming.
  - rewrite try_generate_streaming. cbv zeta. cbn [snd sink_fragments].
    apply sink_fragments_recorded.
  - rewrite try_generate_single_shot by (left; reflexivity). reflexivity.
Qed.

Lemma movie_fallback_shape (context : Context) :
  exists after,
    _create_fallback_response context
    = (Py.nl ++ "        ") ++ ctx_title context ++ after.
Proof.
  unfold _create_fallback_response, template, Py.join.
  cbn [String.concat]. eexists.
  rewrite !append_assoc. cbn [append]. reflexivity.
Qed.

Lemma movie_fallback_not_empty (context : Context) :
  _create_fallback_response context <> "".
Proof.
  destruct (movie_fallback_shape context) as [after ->]. discriminate.
Qed.

Lemma movie_fallback_contains_title (context : Context) :
  Py.contains (ctx_title context) (_create_fallback_response context) = true.
Proof.
  destruct (movie_fallback_shape context) as [after ->]. apply contains_append.
Qed.

Lemma general_fallback_contains_query (query : string) :
  Py.contains query (general_fallback query) = true.
Proof. unfold general_fallback. apply contains_append. Qed.

Lemma general_fallback_not_empty (query : string) : general_fallback query <> "".
Proof. discriminate. Qed.

(** C3. When the request of a synthesis call fails, the call returns a
    fallback that is a function of its arguments alone: the fixed layout over
    the context for [generate_movie_response], the apology for
    [generate_general_response]. The fallback is not empty and contains the
    title of the context (the title of the movie when the details have one),
    respectively the query. A callback receives the fallback in one call,
    after the fragments that had arrived before the failure. *)
Theorem synthesis_failure_delivers_fallback (w : World)
    (movie_data : MovieDetails) (trailer_info : option TrailerInfo)
    (query : string) (streaming : bool) (callback : Callback) :
  let context := make_context movie_data trailer_info in
  let movie_fallback := _create_fallback_response context in
  let delivered (prompt fallback : string) :=
    ((if streaming then stream_pieces (generate_content_stream w prompt) else [])
       ++ [fallback])%list in
  (service_fails w (movie_prompt context) streaming callback = true ->
   let result := generate_movie_response w movie_data trailer_info streaming
                   callback in
   fst result = movie_fallback
   /\ movie_fallback <> ""
   /\ Py.contains (ctx_title context) movie_fallback = true
   /\ (forall movie_title, title movie_data = Some movie_title ->
       Py.contains movie_title movie_fallback = true)
   /\ (callback = Some recording_sink ->
       sink_fragments (snd result)
       = delivered (movie_prompt context) movie_fallback)
   /\ (callback = None -> sink_fragments (snd result) = []))
  /\ (service_fails w (general_prompt query) streaming callback = true ->
      let result := generate_general_response w query streaming callback in
      fst result = general_fallback query
      /\ general_fallback query <> ""
      /\ Py.contains query (general_fallback query) = true
      /\ (callback = Some recording_sink ->
          sink_fragments (snd result)
          = delivered (general_prompt query) (general_fallback query))
      /\ (callback = None -> sink_fragments (snd result) = [])).
Proof.
  cbv zeta. split; intros Hfails.
  - unfold generate_movie_response. rewrite synthesis_of_attempt.
    rewrite (try_generate_fails _ _ _ _ Hfails). cbn [fst snd].
    split; [reflexivity|].
    split; [apply movie_fallback_not_empty|].
    split; [apply movie_fallback_contains_title|].
    split.
    { intros movie_title Htitle.
      pose proof (movie_fallback_contains_title
                    (make_context movie_data trailer_info)) as Hcontains.
      cbn [make_context ctx_title] in Hcontains. rewrite Htitle in Hcontains.
      exact Hcontains. }
    split; intros ->.
    + rewrite sink_fragments_app, try_generate_recorded. reflexivity.
    + rewrite try_generate_single_shot by (right; reflexivity). reflexivity.
  - unfold generate_general_response. rewrite synthesis_of_attempt.
    rewrite (try_generate_fails _ _ _ _ Hfails). cbn [fst snd].
    split; [reflexivity|].
    split; [apply general_fallback_not_empty|].
    split; [apply general_fallback_contains_query|].
    split; intros ->.
    + rewrite sink_fragments_app, try_generate_recorded. reflexivity.
    + rewrite try_generate_single_shot by (right; reflexivity). reflexivity.
Qed.

Lemma synthesis_failure_delivers_fallback_witness :
  let w := streaming_world false in
  service_fails w (general_prompt "film noir") true (Some recording_sink) = true
  /\ fst (generate_general_response w "film noir" true (Some recording_sink))
     = "I'm sorry, I couldn't process your query: 'film noir'. Please try asking in a different way."
  /\ sink_fragments
       (snd (generate_general_response w "film noir" true (Some recording_sink)))
     = ["He"; "at"; " (1995)";
        "I'm sorry, I couldn't process your query: 'film noir'. Please try asking in a different way."].
Proof.
  cbv zeta.
  pose proof (proj2 (synthesis_failure_delivers_fallback
                       (streaming_world false) heat_details None "film noir"
                       true (Some recording_sink))
                eq_refl) as (Htext & _ & _ & Hsink & _).
  split; [reflexivity|]. split; [exact Htext | exact (Hsink eq_refl)].
Defined.

Example movie_fallback_ex :
  generate_movie_response offline heat_details None false None
  = (template [
       "";
       "        Heat (1995)";
       "";
       "        Rating: 7.9/10  ";
       "        Runtime: 170 minutes  ";
       "        Genres: Crime, Drama";
       "";
       "        Overview:";
       "        A crew of thieves and a detective.";
       "";
       "        Cast & Crew:";
       "        Director: Michael Mann  ";
       "        Starring: Al Pacino, Robert De Niro";
       "";
       "        Watch Trailer:";
       "        Trailer not available";
       "";
       "        Budget: $60,000,000  ";
       "        Box Office: $187,436,818";
       "        " ],
     [Generate (movie_prompt (make_context heat_details None)) false]).
Proof. reflexivity. Qed.

(** ** The handling of a query *)

Lemma bind_run {A B} (m : M A) (f : A -> M B) (a : A) (t : list event) :
  m = (a, t) -> bind m f = (fst (f a), (t ++ snd (f a))%list).
Proof. intros ->. unfold bind. destruct (f a). reflexivity. Qed.

Lemma process_user_query_trace (w : World) (query : string) :
  snd (process_user_query w query) = [Generate (classification_prompt query) false].
Proof.
  unfold process_user_query. rewrite bind_tell. cbn [snd].
  destruct (generate_content w (classification_prompt query)) as [text|];
    [|reflexivity].
  destruct (Py.startswith (Py.lower (Py.strip text)) "movie:"); reflexivity.
Qed.

Lemma process_user_query_raised (w : World) (query : string) :
  generate_content w (classification_prompt query) = Raised ->
  fst (process_user_query w query) = ("movie", query).
Proof.
  intros Hraised. unfold process_user_query. rewrite bind_tell, Hraised.
  reflexivity.
Qed.

Lemma search_movie_trace (w : World) (query : string) :
  snd (search_movie w query)
  = [HttpGet (tmdb_base_url ++ "/search/movie")
       [("api_key", TMDB_API_KEY w); ("query", query);
        ("language", "en-US"); ("include_adult", "false")]].
Proof.
  unfold search_movie. rewrite bind_tell. cbn [snd].
  destruct (tmdb_search w query) as [|status results]; [reflexivity|].
  destruct (raises_for_status status); [reflexivity|].
  destruct results; reflexivity.
Qed.

Lemma get_movie_details_trace (w : World) (movie_id : Z) :
  snd (get_movie_details w movie_id)
  = [HttpGet (tmdb_base_url ++ "/movie/" ++ Py.str_int movie_id)
       [("api_key", TMDB_API_KEY w); ("language", "en-US");
        ("append_to_response", "credits,reviews,similar,videos")]].
Proof.
  unfold get_movie_details. rewrite bind_tell. cbn [snd].
  destruct (tmdb_details w movie_id) as [|status details]; [reflexivity|].
  destruct (raises_for_status status); reflexivity.
Qed.

Lemma run_eq {A} (m : M A) (a : A) (t : list event) :
  fst m = a -> snd m = t -> m = (a, t).
Proof. destruct m. cbn. intros -> ->. reflexivity. Qed.

(** The trace of [_handle_query] up to the catalog search, for a query
    classified as a movie. *)
Lemma handle_query_movie (w : World) (query refined : string) (self : Gui) :
  fst (process_user_query w query) = ("movie", refined) ->
  let self' := {| trailer_info := trailer_info self;
                  current_movie := current_movie self;
                  last_query_type := Some "movie";
                  last_query := Some query |} in
  _handle_query w query self
  = (fst (_search_movie w refined self'),
     Call (ProcessUserQuery query)
       :: Generate (classification_prompt query) false
       :: snd (_search_movie w refined self')).
Proof.
  intros Hkind. cbv zeta. unfold _handle_query. rewrite bind_tell.
  rewrite (bind_run _ _ _ _
             (run_eq _ _ _ Hkind (process_user_query_trace w query))).
  reflexivity.
Qed.

(** C2. When the query is classified as a movie, the catalog search finds a
    film and [get_movie_details] returns [None], the handler shows the status
    ["Error fetching details for <title>"], re-enables the search button and
    returns: the trace holds the classification request and the two catalog
    requests, no call of either synthesis method, no request to the model for
    a synthesis and no text for the display. *)
Theorem details_unavailable_stops_without_synthesis (w : World)
    (query refined : string) (movie : MovieSummary) (self : Gui) :
  fst (process_user_query w query) = ("movie", refined) ->
  fst (search_movie w refined) = Some movie ->
  fst (get_movie_details w (summary_id movie)) = None ->
  let trace := snd (_handle_query w query self) in
  trace
  = [ Call (ProcessUserQuery query);
      Generate (classification_prompt query) false;
      Status ("Searching for movie: " ++ refined);
      Call (SearchMovie refined);
      HttpGet (tmdb_base_url ++ "/search/movie")
        [("api_key", TMDB_API_KEY w); ("query", refined);
         ("language", "en-US"); ("include_adult", "false")];
      Status ("Found: " ++ summary_title movie ++ " - Getting details...");
      Call (GetMovieDetails (summary_id movie));
      HttpGet (tmdb_base_url ++ "/movie/" ++ Py.str_int (summary_id movie))
        [("api_key", TMDB_API_KEY w); ("language", "en-US");
         ("append_to_response", "credits,reviews,similar,videos")];
      Status ("Error fetching details for " ++ summary_title movie);
      After EnableSearchButton ]
  /\ synthesis_calls trace = []
  /\ appended_text trace = []
  /\ sink_fragments trace = [].
Proof.
  intros Hkind Hfound Hdetails. cbv zeta.
  rewrite (handle_query_movie _ _ _ _ Hkind). cbv zeta. cbn [snd].
  unfold _search_movie. unfold show_status at 1. rewrite !bind_tell.
  rewrite (bind_run _ _ _ _
             (run_eq _ _ _ Hfound (search_movie_trace w refined))).
  unfold show_status at 1. rewrite !bind_tell.
  rewrite (bind_run _ _ _ _
             (run_eq _ _ _ Hdetails
                (get_movie_details_trace w (summary_id movie)))).
  unfold show_status. rewrite !bind_tell. cbn [fst snd app ret].
  repeat split.
Qed.

Lemma details_unavailable_stops_without_synthesis_witness :
  let w := catalog_world (Text "movie: Heat") StreamEnd 503 in
  fst (process_user_query w "Tell me about Heat") = ("movie", "heat")
  /\ fst (search_movie w "heat") = Some heat_summary
  /\ fst (get_movie_details w 949) = None
  /\ status_messages (snd (_handle_query w "Tell me about Heat" init_gui))
     = [ "Searching for movie: heat";
         "Found: Heat - Getting details...";
         "Error fetching details for Heat" ]
  /\ synthesis_calls (snd (_handle_query w "Tell me about Heat" init_gui)) = [].
Proof.
  cbv zeta.
  pose proof (details_unavailable_stops_without_synthesis
                (catalog_world (Text "movie: Heat") StreamEnd 503)
                "Tell me about Heat" "heat" heat_summary init_gui
                eq_refl eq_refl eq_refl) as (Htrace & Hcalls & _).
  split; [reflexivity|]. split; [reflexivity|]. split; [reflexivity|].
  split; [|exact Hcalls].
  cbv zeta in Htrace. rewrite Htrace. reflexivity.
Defined.

Lemma general_response_streaming_trace (w : World) (query : string)
    (callback : string -> M unit) :
  let chunks := generate_content_stream w (general_prompt query) in
  snd (generate_general_response w query true (Some callback))
  = (Generate (general_prompt query) true
       :: flat_map (fun piece => snd (callback piece)) (stream_pieces chunks)
       ++ (if stream_completes chunks then []
           else snd (callback (general_fallback query))))%list.
Proof.
  cbv zeta. unfold generate_general_response.
  rewrite synthesis_of_attempt, try_generate_streaming. cbv zeta.
  destruct (stream_completes _); cbn [fst snd]; [|reflexivity].
  rewrite app_nil_r. reflexivity.
Qed.

Lemma no_synthesis_call_in_appended (pieces : list string) :
  synthesis_calls (flat_map (fun piece => snd (append_later piece)) pieces) = [].
Proof. induction pieces as [|piece rest IH]; [reflexivity | exact IH]. Qed.

Lemma no_synthesis_call_in_general_response (w : World) (query : string) :
  synthesis_calls (snd (generate_general_response w query true (Some append_later)))
  = [].
Proof.
  rewrite general_response_streaming_trace. cbv zeta.
  unfold synthesis_calls. cbn [filter is_synthesis_call].
  rewrite filter_app. fold (synthesis_calls
    (flat_map (fun piece => snd (append_later piece))
       (stream_pieces (generate_content_stream w (general_prompt query))))).
  rewrite no_synthesis_call_in_appended.
  destruct (stream_completes _); reflexivity.
Qed.

(** C1, as the code has it. When the query is classified as a movie and the
    catalog search returns [None], the handler re-routes to the general path
    with the text it searched for: [generate_general_response] is the only
    synthesis call and its argument is the refined query, while the original
    query is kept in [last_query]. The two are the same text when the
    classification request had raised. *)
Theorem not_found_reroutes_with_searched_text (w : World)
    (query refined : string) (self : Gui) :
  fst (process_user_query w query) = ("movie", refined) ->
  fst (search_movie w refined) = None ->
  let result := _handle_query w query self in
  snd result
  = ([ Call (ProcessUserQuery query);
       Generate (classification_prompt query) false;
       Status ("Searching for movie: " ++ refined);
       Call (SearchMovie refined);
       HttpGet (tmdb_base_url ++ "/search/movie")
         [("api_key", TMDB_API_KEY w); ("query", refined);
          ("language", "en-US"); ("include_adult", "false")];
       Status ("Movie not found: " ++ refined);
       Status ("Treating '" ++ refined ++ "' as a general question...");
       Status ("Answering: " ++ refined);
       After (UpdateUiForGeneralQuery refined);
       Call (GenerateGeneralResponse refined true) ]
     ++ snd (generate_general_response w refined true (Some append_later)))%list
  /\ synthesis_calls (snd result) = [Call (GenerateGeneralResponse refined true)]
  /\ last_query (fst result) = Some query
  /\ (generate_content w (classification_prompt query) = Raised ->
      refined = query).
Proof.
  intros Hkind Hnone. cbv zeta.
  rewrite (handle_query_movie _ _ _ _ Hkind). cbv zeta. cbn [fst snd].
  assert (Hsearch :
    forall self',
      _search_movie w refined self'
      = (self',
         ([ Status ("Searching for movie: " ++ refined);
            Call (SearchMovie refined);
            HttpGet (tmdb_base_url ++ "/search/movie")
              [("api_key", TMDB_API_KEY w); ("query", refined);
               ("language", "en-US"); ("include_adult", "false")];
            Status ("Movie not found: " ++ refined);
            Status ("Treating '" ++ refined ++ "' as a general question...");
            Status ("Answering: " ++ refined);
            After (UpdateUiForGeneralQuery refined);
            Call (GenerateGeneralResponse refined true) ]
          ++ snd (generate_general_response w refined true (Some append_later)))%list)).
  { intros self'. unfold _search_movie. unfold show_status at 1.
    rewrite !bind_tell.
    rewrite (bind_run _ _ _ _
               (run_eq _ _ _ Hnone (search_movie_trace w refined))).
    unfold _handle_movie_not_found, _answer_general_query, show_status.
    rewrite !bind_tell.
    destruct (generate_general_response w refined true (Some append_later))
      as [text t] eqn:Hgen.
    cbn [bind ret fst snd app]. rewrite app_nil_r. reflexivity. }
  rewrite Hsearch. cbn [fst snd last_query].
  split; [reflexivity|]. split; [|split; [reflexivity|]].
  - unfold synthesis_calls. cbn [filter is_synthesis_call app].
    f_equal. apply no_synthesis_call_in_general_response.
  - intros Hraised.
    rewrite (process_user_query_raised _ _ Hraised) in Hkind. congruence.
Qed.

Lemma not_found_reroutes_with_searched_text_witness :
  let w := catalog_world (Text "movie: Blade Runner 2099")
             (Chunk "No such film." StreamEnd) 200 in
  let query := "Tell me about Blade Runner 2099" in
  fst (process_user_query w query) = ("movie", "blade runner 2099")
  /\ fst (search_movie w "blade runner 2099") = None
  /\ synthesis_calls (snd (_handle_query w query init_gui))
     = [Call (GenerateGeneralResponse "blade runner 2099" true)]
  /\ last_query (fst (_handle_query w query init_gui)) = Some query.
Proof.
  cbv zeta.
  pose proof (not_found_reroutes_with_searched_text
                (catalog_world (Text "movie: Blade Runner 2099")
                   (Chunk "No such film." StreamEnd) 200)
                "Tell me about Blade Runner 2099" "blade runner 2099" init_gui
                eq_refl eq_refl) as (_ & Hcalls & Hlast & _).
  split; [reflexivity|]. split; [reflexivity|].
  split; [exact Hcalls | exact Hlast].
Defined.

(** C1, as the specification states it, fails: for the query
    ["Tell me about Blade Runner 2099"], classified as the movie
    ["blade runner 2099"] and not found in the catalog, the general path is
    invoked with ["blade runner 2099"], not with the original query. *)
Lemma not_found_reroute_original_query_counterexample :
  let w := catalog_world (Text "movie: Blade Runner 2099")
             (Chunk "No such film." StreamEnd) 200 in
  let query := "Tell me about Blade Runner 2099" in
  fst (process_user_query w query) = ("movie", "blade runner 2099")
  /\ fst (search_movie w "blade runner 2099") = None
  /\ synthesis_calls (snd (_handle_query w query init_gui))
     <> [Call (GenerateGeneralResponse query true)]
  /\ ~ In (Generate (general_prompt query) true)
          (snd (_handle_query w query init_gui))
  /\ In (Generate (general_prompt "blade runner 2099") true)
        (snd (_handle_query w query init_gui)).
Proof.
  cbv zeta. split; [reflexivity|]. split; [reflexivity|].
  split; [vm_compute; discriminate|].
  split.
  - vm_compute. intros H.
    repeat (destruct H as [H|H]; [discriminate H|]). exact H.
  - vm_compute. do 10 right. left. reflexivity.
Qed.

(** ** A whole query, end to end *)

Example heat_query_statuses :
  let w := catalog_world (Text " Movie: Heat ") (Chunk "He" (Chunk "at" StreamEnd)) 200 in
  let trace := snd (_handle_query w "Tell me about Heat" init_gui) in
  status_messages trace
  = [ "Searching for movie: heat";
      "Found: Heat - Getting details...";
      "Generating information about Heat..." ]
  /\ appended_text trace = ["He"; "at"]
  /\ trailer_info (fst (_handle_query w "Tell me about Heat" init_gui))
     = Some {| trailer_title := "Heat Official Trailer";
               trailer_url := "https://www.youtube.com/watch?v=t2";
               trailer_video_id := "t2" |}.
Proof. cbv zeta. repeat split; vm_compute; reflexivity. Qed.

Example general_query_statuses :
  let w := catalog_world (Text "general: what is film noir?")
             (Chunk "A style." StreamEnd) 200 in
  let trace := snd (_handle_query w "What is film noir?" init_gui) in
  status_messages trace = ["Answering: What is film noir?"]
  /\ synthesis_calls trace
     = [Call (GenerateGeneralResponse "What is film noir?" true)]
  /\ appended_text trace = ["A style."].
Proof. cbv zeta. repeat split; vm_compute; reflexivity. Qed.

(** * Further properties of the agent *)

(** ** Director and cast *)

Lemma filter_first {A} (p : A -> bool) (before after : list A) (x : A) :
  Forall (fun a => p a = false) before -> p x = true ->
  filter p (before ++ x :: after)%list = x :: filter p after.
Proof.
  intros Hbefore Hx. induction Hbefore as [|a l Ha _ IH]; cbn [app filter].
  - rewrite Hx. reflexivity.
  - rewrite Ha. exact IH.
Qed.

Lemma filter_none {A} (p : A -> bool) (l : list A) :
  (forall a, In a l -> p a = false) -> filter p l = [].
Proof.
  induction l as [|a l IH]; intros Hnone; [reflexivity|].
  cbn [filter]. rewrite (Hnone a (or_introl eq_refl)).
  apply IH. intros b Hb. apply Hnone. right. exact Hb.
Qed.

(** X1. [_get_director] names the first member of the crew whose job is
    ["Director"], whatever comes before or after, and ["Unknown"] when the
    crew has no director (an empty or absent crew included). *)
Theorem get_director_first_or_unknown (movie_data : MovieDetails) :
  ((exists member, In member (crew movie_data)
                   /\ crew_job member = "Director") ->
   exists before director after,
     crew movie_data = (before ++ director :: after)%list
     /\ Forall (fun member => crew_job member <> "Director") before
     /\ crew_job director = "Director"
     /\ _get_director movie_data = crew_name director)
  /\ ((forall member, In member (crew movie_data) ->
       crew_job member <> "Director") ->
      _get_director movie_data = "Unknown").
Proof.
  split.
  - intros (member & Hin & Hjob).
    destruct (first_match_split (fun m => crew_job m =? "Director")
                (crew movie_data)) as (before & director & after & Hcrew & Hbefore & Hdir).
    { exists member. split; [exact Hin|]. apply String.eqb_eq. exact Hjob. }
    exists before, director, after. apply String.eqb_eq in Hdir.
    split; [exact Hcrew|]. split.
    { eapply Forall_impl; [|exact Hbefore]. intros a Ha.
      apply String.eqb_neq. exact Ha. }
    split; [exact Hdir|].
    unfold _get_director. rewrite Hcrew.
    rewrite (filter_first _ before after director Hbefore)
      by (apply String.eqb_eq; exact Hdir).
    reflexivity.
  - intros Hnone. unfold _get_director.
    rewrite filter_none; [reflexivity|].
    intros a Ha. apply String.eqb_neq. exact (Hnone a Ha).
Qed.

Lemma get_director_first_or_unknown_witness :
  (exists member, In member (crew heat_details)
                  /\ crew_job member = "Director")
  /\ (exists before director after,
        crew heat_details = (before ++ director :: after)%list
        /\ Forall (fun member => crew_job member <> "Director") before
        /\ crew_job director = "Director"
        /\ _get_director heat_details = crew_name director)
  /\ _get_director heat_details = "Michael Mann".
Proof.
  assert (Hdirector : exists member, In member (crew heat_details)
                                     /\ crew_job member = "Director").
  { exists {| crew_name := "Michael Mann"; crew_job := "Director" |}.
    split; [right; left; reflexivity | reflexivity]. }
  split; [exact Hdirector|].
  split; [|reflexivity].
  exact (proj1 (get_director_first_or_unknown heat_details) Hdirector).
Defined.

(** X2. The prompt and the fallback of the movie path name five members of
    the cast at most: members after the fifth change neither text. *)
Theorem cast_beyond_fifth_is_not_shown (movie_data : MovieDetails)
    (trailer_info : option TrailerInfo) (more : list string) :
  (5 <= List.length (cast movie_data))%nat ->
  let longer :=
    {| title := title movie_data; release_date := release_date movie_data;
       overview := overview movie_data; vote_average := vote_average movie_data;
       genres := genres movie_data; runtime := runtime movie_data;
       budget := budget movie_data; revenue := revenue movie_data;
       crew := crew movie_data; cast := (cast movie_data ++ more)%list;
       videos := videos movie_data; poster_path := poster_path movie_data |} in
  movie_prompt (make_context longer trailer_info)
  = movie_prompt (make_context movie_data trailer_info)
  /\ _create_fallback_response (make_context longer trailer_info)
     = _create_fallback_response (make_context movie_data trailer_info).
Proof.
  intros Hfive. cbv zeta.
  assert (Hshown : firstn 5 (cast movie_data ++ more) = firstn 5 (cast movie_data)).
  { rewrite firstn_app.
    replace (5 - List.length (cast movie_data))%nat with 0%nat by lia.
    cbn [firstn]. apply app_nil_r. }
  unfold movie_prompt, _create_fallback_response, make_context, _get_cast,
    _get_director.
  cbn [ctx_title ctx_release_date ctx_overview ctx_vote_average ctx_genres
       ctx_runtime ctx_budget ctx_revenue ctx_director ctx_cast ctx_trailer
       title release_date overview vote_average genres runtime budget revenue
       crew cast].
  rewrite Hshown. split; reflexivity.
Qed.

Lemma cast_beyond_fifth_is_not_shown_witness :
  let six :=
    {| title := Some "Heat"; release_date := None; overview := None;
       vote_average := None; genres := []; runtime := None; budget := None;
       revenue := None; crew := [];
       cast := ["a"; "b"; "c"; "d"; "e"; "f"];
       videos := None; poster_path := None |} in
  let five :=
    {| title := Some "Heat"; release_date := None; overview := None;
       vote_average := None; genres := []; runtime := None; budget := None;
       revenue := None; crew := [];
       cast := ["a"; "b"; "c"; "d"; "e"];
       videos := None; poster_path := None |} in
  (5 <= List.length (cast five))%nat
  /\ _create_fallback_response (make_context six None)
     = _create_fallback_response (make_context five None).
Proof.
  cbv zeta. split; [cbn; lia|].
  refine (proj2 (cast_beyond_fifth_is_not_shown
                   {| title := Some "Heat"; release_date := None; overview := None;
                      vote_average := None; genres := []; runtime := None;
                      budget := None; revenue := None; crew := [];
                      cast := ["a"; "b"; "c"; "d"; "e"];
                      videos := None; poster_path := None |}
                   None ["f"] _)).
  cbn. lia.
Defined.

(** ** Trailers *)

Lemma until_ampersand_stops (s : string) :
  exists after,
    s = until_ampersand s ++ after /\ (after = "" \/ prefix "&" after = true).
Proof.
  induction s as [|c r (after & IH & Hstop)]; [exists ""; auto|].
  cbn [until_ampersand]. destruct (Ascii.eqb_spec c "&") as [->|_].
  - exists (String "&" r). split; [reflexivity|]. right.
    change (String "&" r) with ("&" ++ r). apply prefix_append.
  - exists after. split; [|exact Hstop]. cbn [append]. rewrite <- IH. reflexivity.
Qed.

Lemma until_ampersand_whole (s : string) :
  Py.contains "&" s = false -> until_ampersand s = s.
Proof.
  induction s as [|c r IH]; [reflexivity|]. intros Hclean.
  rewrite contains_unfold in Hclean. apply orb_false_iff in Hclean.
  destruct Hclean as [Hhead Hrest]. cbn [until_ampersand].
  destruct (Ascii.eqb_spec c "&") as [->|_].
  - change (String "&" r) with ("&" ++ r) in Hhead.
    rewrite prefix_append in Hhead. discriminate Hhead.
  - rewrite (IH Hrest). reflexivity.
Qed.

Lemma until_ampersand_before (video_id rest : string) :
  Py.contains "&" video_id = false ->
  until_ampersand (video_id ++ String "&" rest) = video_id.
Proof.
  induction video_id as [|c r IH]; [reflexivity|]. intros Hclean.
  rewrite contains_unfold in Hclean. apply orb_false_iff in Hclean.
  destruct Hclean as [Hhead Hrest]. cbn [append until_ampersand].
  destruct (Ascii.eqb_spec c "&") as [->|_].
  - change (String "&" r) with ("&" ++ r) in Hhead.
    rewrite prefix_append in Hhead. discriminate Hhead.
  - rewrite (IH Hrest). reflexivity.
Qed.

Lemma watch_here_found (video_id after : string) :
  video_id <> "" -> Py.contains "&" video_id = false ->
  (after = "" \/ prefix "&" after = true) ->
  re_search_watch ("youtube.com/watch?v=" ++ video_id ++ after) = Some video_id.
Proof.
  intros Hne Hclean Hstop. rewrite re_search_watch_unfold. cbv zeta.
  rewrite prefix_append, after_watch_literal.
  rewrite (until_ampersand_head _ _ Hne Hclean). f_equal.
  destruct Hstop as [-> | Hamp].
  - rewrite append_empty_r. apply until_ampersand_whole. exact Hclean.
  - destruct (prefix_split _ _ Hamp) as [rest ->].
    apply until_ampersand_before. exact Hclean.
Qed.

Lemma re_search_watch_skip (c : ascii) (r : string) :
  c <> "y"%char -> re_search_watch (String c r) = re_search_watch r.
Proof.
  intros Hc. rewrite re_search_watch_unfold. cbv zeta.
  cbn [prefix]. destruct (ascii_dec "y" c) as [<-|_]; [now elim Hc|].
  reflexivity.
Qed.

(** X3. [re.search] takes the leftmost occurrence of the literal text that
    an id can follow, and the longest id there: the id it returns is not
    empty, holds no [&], ends at the end of the link or right before an [&],
    and no split of the link puts a well-formed occurrence further left. *)
Theorem re_search_watch_leftmost_longest (href video_id : string) :
  re_search_watch href = Some video_id ->
  exists before after,
    href = before ++ "youtube.com/watch?v=" ++ video_id ++ after
    /\ video_id <> ""
    /\ Py.contains "&" video_id = false
    /\ (after = "" \/ prefix "&" after = true)
    /\ forall before' id' after',
         href = before' ++ "youtube.com/watch?v=" ++ id' ++ after' ->
         id' <> "" -> Py.contains "&" id' = false ->
         (String.length before <= String.length before')%nat.
Proof.
  revert video_id. induction href as [|c r IH]; intros video_id;
    [discriminate|].
  rewrite re_search_watch_unfold. cbv zeta.
  destruct (Py.truthy _) eqn:Hhere.
  - intros Hsome.
    destruct (prefix "youtube.com/watch?v=" (String c r)) eqn:Hp;
      [|discriminate Hhere].
    destruct (prefix_split _ _ Hp) as [rest Hrest].
    rewrite Hrest, after_watch_literal in Hhere, Hsome.
    assert (Hid : video_id = until_ampersand rest) by congruence.
    destruct (until_ampersand_stops rest) as (after & Hafter & Hstop).
    exists "", after. rewrite Hrest, Hid.
    split; [rewrite Hafter at 1; reflexivity|].
    split; [intros Hempty; rewrite Hempty in Hhere; discriminate Hhere|].
    split; [apply until_ampersand_clean|].
    split; [exact Hstop|]. intros; cbn; lia.
  - intros Hlater.
    destruct (IH _ Hlater) as (before & after & Hr & Hne & Hclean & Hstop & Hleft).
    exists (String c before), after.
    split; [rewrite Hr at 1; reflexivity|].
    split; [exact Hne|]. split; [exact Hclean|]. split; [exact Hstop|].
    intros before' id' after' Hsplit Hne' Hclean'.
    destruct before' as [|c' b'].
    + exfalso.
      change (String c r = "youtube.com/watch?v=" ++ id' ++ after') in Hsplit.
      rewrite Hsplit, prefix_append, after_watch_literal in Hhere.
      rewrite (until_ampersand_head _ _ Hne' Hclean') in Hhere.
      discriminate Hhere.
    + change (String c r = String c' (b' ++ "youtube.com/watch?v=" ++ id' ++ after'))
        in Hsplit.
      injection Hsplit as _ Hsplit.
      cbn [String.length]. apply le_n_S. exact (Hleft _ _ _ Hsplit Hne' Hclean').
Qed.

Lemma re_search_watch_leftmost_longest_witness :
  re_search_watch "youtube.com/watch?v=&youtube.com/watch?v=zz&t=1" = Some "zz"
  /\ exists before after,
       "youtube.com/watch?v=&youtube.com/watch?v=zz&t=1"
       = before ++ "youtube.com/watch?v=" ++ "zz" ++ after
       /\ (after = "" \/ prefix "&" after = true).
Proof.
  split; [reflexivity|].
  destruct (re_search_watch_leftmost_longest
              "youtube.com/watch?v=&youtube.com/watch?v=zz&t=1" "zz" eq_refl)
    as (before & after & Hsplit & _ & _ & Hstop & _).
  exists before, after. split; [exact Hsplit | exact Hstop].
Defined.

Lemma watch_url_round_trip (video_id : string) :
  video_id <> "" -> Py.contains "&" video_id = false ->
  re_search_watch ("https://www.youtube.com/watch?v=" ++ video_id)
  = Some video_id.
Proof.
  intros Hne Hclean.
  change ("https://www.youtube.com/watch?v=" ++ video_id)
    with ("https://www." ++ "youtube.com/watch?v=" ++ video_id).
  cbn [append]. rewrite !re_search_watch_skip by discriminate.
  change (re_search_watch ("youtube.com/watch?v=" ++ video_id) = Some video_id).
  rewrite <- (append_empty_r video_id) at 1.
  apply watch_here_found; auto.
Qed.

(** X4. Whatever tier finds it, a trailer [find_trailer] returns has the URL
    ["https://www.youtube.com/watch?v="] followed by its video id, hence a
    non-empty URL. It is titled ["<title> Official Trailer"] when no web
    request was made and ["<title> Trailer"] after exactly one; the method
    never makes a second request. *)
Theorem find_trailer_result_shape (w : World) (movie_title : string)
    (year : option string) (movie_data : option MovieDetails)
    (info : TrailerInfo) :
  fst (find_trailer w movie_title year movie_data) = Some info ->
  trailer_url info
  = "https://www.youtube.com/watch?v=" ++ trailer_video_id info
  /\ Py.truthy (trailer_url info) = true
  /\ ((trailer_title info = movie_title ++ " Official Trailer"
       /\ snd (find_trailer w movie_title year movie_data) = [])
      \/ (trailer_title info = movie_title ++ " Trailer"
          /\ snd (find_trailer w movie_title year movie_data)
             = [HttpGet (trailer_search_url
                           (trailer_search_query movie_title year)) []])).
Proof.
  unfold find_trailer.
  destruct (tmdb_trailer_video movie_data) as [video|].
  - cbn [fst snd ret]. intros [= <-]. cbn. auto.
  - rewrite bind_tell. cbn [fst snd].
    destruct (web_search w _) as [|status links]; [discriminate|].
    destruct (raises_for_status status); [discriminate|].
    destruct (flat_map (youtube_link movie_title) links) as [|first rest] eqn:Hlinks;
      [discriminate|].
    cbn [fst snd ret]. intros [= ->].
    apply flat_map_head in Hlinks.
    destruct Hlinks as (earlier & link & later & tail & _ & _ & Hlink).
    apply youtube_link_cons in Hlink.
    destruct Hlink as (href & _ & _ & Htitle & Hurl).
    split; [exact Hurl|]. split; [rewrite Hurl; reflexivity|].
    right. split; [exact Htitle | reflexivity].
Qed.

Lemma find_trailer_result_shape_witness :
  fst (find_trailer web_world "Heat" None None)
  = Some {| trailer_title := "Heat Trailer";
            trailer_url := "https://www.youtube.com/watch?v=abc123";
            trailer_video_id := "abc123" |}
  /\ snd (find_trailer web_world "Heat" None None)
     = [HttpGet "https://www.google.com/search?q=Heat official trailer+site:youtube.com" []].
Proof.
  split; [reflexivity|].
  destruct (find_trailer_result_shape web_world "Heat" None None _ eq_refl)
    as (_ & _ & [[Htitle _] | [_ Htrace]]).
  - discriminate Htitle.
  - exact Htrace.
Defined.

(** X5. The URL of a trailer found by the web search reads back: searching
    it with the pattern of the fallback tier gives the trailer's own video
    id. *)
Theorem fallback_trailer_url_reads_back (w : World) (movie_title : string)
    (year : option string) (movie_data : option MovieDetails)
    (info : TrailerInfo) :
  tmdb_trailer_video movie_data = None ->
  fst (find_trailer w movie_title year movie_data) = Some info ->
  re_search_watch (trailer_url info) = Some (trailer_video_id info).
Proof.
  intros Hnone. unfold find_trailer. rewrite Hnone, bind_tell. cbn [fst].
  destruct (web_search w _) as [|status links]; [discriminate|].
  destruct (raises_for_status status); [discriminate|].
  destruct (flat_map (youtube_link movie_title) links) as [|first rest] eqn:Hlinks;
    [discriminate|].
  cbn [fst ret]. intros [= ->].
  apply flat_map_head in Hlinks.
  destruct Hlinks as (earlier & link & later & tail & _ & _ & Hlink).
  apply youtube_link_cons in Hlink.
  destruct Hlink as (href & _ & (before & after & _ & Hne & Hclean) & _ & Hurl).
  rewrite Hurl. apply watch_url_round_trip; assumption.
Qed.

Lemma fallback_trailer_url_reads_back_witness :
  tmdb_trailer_video None = None
  /\ re_search_watch "https://www.youtube.com/watch?v=abc123" = Some "abc123".
Proof.
  split; [reflexivity|].
  exact (fallback_trailer_url_reads_back web_world "Heat" None None
           {| trailer_title := "Heat Trailer";
              trailer_url := "https://www.youtube.com/watch?v=abc123";
              trailer_video_id := "abc123" |} eq_refl eq_refl).
Defined.

(** ** The refined title *)

Lemma lstrip_shorter (s : string) :
  (String.length (Py.lstrip s) <= String.length s)%nat.
Proof.
  induction s as [|c r IH]; [reflexivity|]. cbn [Py.lstrip].
  destruct (Py.isspace c); cbn [String.length]; lia.
Qed.

Lemma lstrip_fixed_head (c : ascii) (r : string) :
  Py.lstrip (String c r) = String c r -> Py.isspace c = false.
Proof.
  cbn [Py.lstrip]. destruct (Py.isspace c); [|reflexivity].
  intros Hfixed. pose proof (lstrip_shorter r) as Hlen.
  rewrite Hfixed in Hlen. cbn [String.length] in Hlen. lia.
Qed.

Lemma lstrip_idempotent (s : string) : Py.lstrip (Py.lstrip s) = Py.lstrip s.
Proof.
  induction s as [|c r IH]; [reflexivity|]. cbn [Py.lstrip].
  destruct (Py.isspace c) eqn:Hc; [exact IH|]. cbn [Py.lstrip]. rewrite Hc.
  reflexivity.
Qed.

Lemma rstrip_idempotent (s : string) : Py.rstrip (Py.rstrip s) = Py.rstrip s.
Proof.
  induction s as [|c r IH]; [reflexivity|]. cbn [Py.rstrip].
  destruct (Py.rstrip r) as [|d r'] eqn:Hr.
  - destruct (Py.isspace c) eqn:Hc; [reflexivity|]. cbn [Py.rstrip].
    rewrite Hc. reflexivity.
  - change (Py.rstrip (String c (String d r')))
      with (match Py.rstrip (String d r') with
            | "" => if Py.isspace c then "" else String c ""
            | r'' => String c r''
            end).
    rewrite IH. reflexivity.
Qed.

Lemma lstrip_of_rstrip (s : string) :
  Py.lstrip s = s -> Py.lstrip (Py.rstrip s) = Py.rstrip s.
Proof.
  destruct s as [|c r]; [reflexivity|]. intros Hfixed.
  pose proof (lstrip_fixed_head _ _ Hfixed) as Hc. cbn [Py.rstrip].
  destruct (Py.rstrip r); rewrite ?Hc; cbn [Py.lstrip]; rewrite Hc; reflexivity.
Qed.

Lemma strip_idempotent (s : string) : Py.strip (Py.strip s) = Py.strip s.
Proof.
  unfold Py.strip.
  rewrite (lstrip_of_rstrip (Py.lstrip s) (lstrip_idempotent s)).
  apply rstrip_idempotent.
Qed.

(** X6. The refined title of a movie classification that comes from a reply
    of the service is normalised text: stripping it or lowercasing it again
    changes nothing, whatever case and padding the service used. *)
Theorem refined_title_is_normalised (w : World) (query text refined : string) :
  generate_content w (classification_prompt query) = Text text ->
  fst (process_user_query w query) = ("movie", refined) ->
  Py.lower refined = refined /\ Py.strip refined = refined.
Proof.
  intros Hreply Hmovie.
  split; [exact (refined_title_is_lowercase w query text refined Hreply Hmovie)|].
  revert Hmovie. unfold process_user_query. rewrite bind_tell, Hreply.
  cbn [fst]. destruct (Py.startswith _ "movie:"); cbn [fst ret];
    [|discriminate].
  intros [= <-]. apply strip_idempotent.
Qed.

Lemma refined_title_is_normalised_witness :
  let w := answering "  MOVIE:   The Godfather  " in
  fst (process_user_query w "godfather film") = ("movie", "the godfather")
  /\ Py.lower "the godfather" = "the godfather"
  /\ Py.strip "the godfather" = "the godfather".
Proof.
  cbv zeta. split; [reflexivity|].
  exact (refined_title_is_normalised (answering "  MOVIE:   The Godfather  ")
           "godfather film" "  MOVIE:   The Godfather  " "the godfather"
           eq_refl eq_refl).
Defined.

(** X7. When the stripped, lowercased reply holds the marker ["movie:"] at
    its head and nowhere else, the query is classified as a movie and the
    refined title is the text after the marker, stripped. *)
Theorem refined_title_is_text_after_marker (w : World)
    (query text rest : string) :
  generate_content w (classification_prompt query) = Text text ->
  Py.lower (Py.strip text) = "movie:" ++ rest ->
  Py.contains "movie:" rest = false ->
  fst (process_user_query w query) = ("movie", Py.strip rest).
Proof.
  intros Hreply Hlower Hnone.
  destruct (refined_title_when_marker_once w query text rest Hreply Hlower Hnone)
    as [Hrefined Htrail].
  rewrite Hrefined, Htrail. reflexivity.
Qed.

Lemma refined_title_is_text_after_marker_witness :
  fst (process_user_query (answering " Movie: Heat ") "heat film")
  = ("movie", "heat").
Proof.
  exact (refined_title_is_text_after_marker (answering " Movie: Heat ")
           "heat film" " Movie: Heat " " heat" eq_refl eq_refl eq_refl).
Defined.

(** ** What the synthesis texts show *)

Lemma contains_split (sub s : string) :
  Py.contains sub s = true -> exists before after, s = before ++ sub ++ after.
Proof.
  induction s as [|c r IH]; rewrite contains_unfold; intros Hin;
    apply orb_true_iff in Hin; destruct Hin as [Hhere | Hlater];
    try discriminate.
  - destruct (prefix_split _ _ Hhere) as [rest ->]. exists "", rest. reflexivity.
  - destruct (prefix_split _ _ Hhere) as [rest ->]. exists "", rest. reflexivity.
  - destruct (IH Hlater) as (before & after & ->).
    exists (String c before), after. reflexivity.
Qed.

Lemma contains_trans (a b c : string) :
  Py.contains a b = true -> Py.contains b c = true -> Py.contains a c = true.
Proof.
  intros Hab Hbc.
  destruct (contains_split _ _ Hab) as (p & q & ->).
  destruct (contains_split _ _ Hbc) as (p' & q' & ->).
  rewrite !append_assoc. rewrite <- (append_assoc p' p).
  apply contains_append.
Qed.

Lemma contains_line (sep line : string) (lines : list string) :
  In line lines -> Py.contains line (String.concat sep lines) = true.
Proof.
  induction lines as [|x rest IH]; intros Hin; [destruct Hin|].
  destruct rest as [|y rest].
  - destruct Hin as [-> | []]. cbn [String.concat].
    rewrite <- (append_empty_r line) at 2. apply (contains_append line "" "").
  - change (String.concat sep (x :: y :: rest))
      with (x ++ sep ++ String.concat sep (y :: rest)).
    destruct Hin as [-> | Hin].
    + apply (contains_append line "").
    + destruct (contains_split _ _ (IH Hin)) as (before & after & ->).
      rewrite <- !append_assoc. rewrite (append_assoc _ line after).
      apply contains_append.
Qed.

Lemma contains_in_line (field before after : string) (lines : list string) :
  In (before ++ field ++ after) lines ->
  Py.contains field (template lines) = true.
Proof.
  intros Hin. apply (contains_trans _ (before ++ field ++ after)).
  - apply contains_append.
  - apply contains_line. exact Hin.
Qed.

Lemma contains_at_line_end (field before : string) (lines : list string) :
  In (before ++ field) lines -> Py.contains field (template lines) = true.
Proof.
  intros Hin. apply (contains_in_line field before "").
  rewrite append_empty_r. exact Hin.
Qed.

(** X8. The fallback of the movie path shows every field of the context: the
    title, the first four characters of the release date, the rating, the
    runtime, the genres, the overview, the director, the first five members
    of the cast, the trailer text, and the budget and the revenue with their
    thousands grouped. *)
Theorem movie_fallback_shows_context (context : Context) :
  let fallback := _create_fallback_response context in
  Forall (fun field => Py.contains field fallback = true)
    [ ctx_title context;
      Py.take 4 (ctx_release_date context);
      ctx_vote_average context;
      ctx_runtime context;
      Py.join ", " (ctx_genres context);
      ctx_overview context;
      ctx_director context;
      Py.join ", " (firstn 5 (ctx_cast context));
      ctx_trailer context;
      Py.format_thousands (ctx_budget context);
      Py.format_thousands (ctx_revenue context) ].
Proof.
  cbv zeta. unfold _create_fallback_response.
  repeat (apply Forall_cons || apply Forall_nil).
  - eapply (contains_in_line _ "        "). cbn [In]. auto 25.
  - eapply (contains_in_line _ ("        " ++ ctx_title context ++ " (") ")").
    cbn [In]. right. left. rewrite !append_assoc. reflexivity.
  - eapply (contains_in_line _ "        Rating: "). cbn [In]. auto 25.
  - eapply (contains_in_line _ "        Runtime: "). cbn [In]. auto 25.
  - eapply (contains_at_line_end _ "        Genres: "). cbn [In]. auto 25.
  - eapply (contains_at_line_end _ "        "). cbn [In]. do 8 right. left.
    reflexivity.
  - eapply (contains_in_line _ "        Director: "). cbn [In]. auto 25.
  - eapply (contains_at_line_end _ "        Starring: "). cbn [In]. auto 25.
  - eapply (contains_at_line_end _ "        "). cbn [In]. do 15 right. left.
    reflexivity.
  - eapply (contains_in_line _ "        Budget: $"). cbn [In]. auto 25.
  - eapply (contains_at_line_end _ "        Box Office: $"). cbn [In]. auto 25.
Qed.

(** X9. Every prompt embeds its input: the classification prompt and the
    general prompt hold the query between double quotes, and the movie prompt
    holds every field of the context, the release date in full. *)
Theorem prompts_embed_their_input (query : string) (context : Context) :
  Py.contains (Py.dquote ++ query ++ Py.dquote) (classification_prompt query)
  = true
  /\ Py.contains (Py.dquote ++ query ++ Py.dquote) (general_prompt query) = true
  /\ Forall (fun field => Py.contains field (movie_prompt context) = true)
       [ ctx_title context;
         ctx_release_date context;
         ctx_runtime context;
         Py.join ", " (ctx_genres context);
         ctx_vote_average context;
         ctx_director context;
         Py.join ", " (firstn 5 (ctx_cast context));
         ctx_overview context;
         Py.format_thousands (ctx_budget context);
         Py.format_thousands (ctx_revenue context);
         ctx_trailer context ].
Proof.
  split; [|split].
  - unfold classification_prompt.
    eapply (contains_at_line_end _ "        Query: "). cbn [In]. auto 25.
  - unfold general_prompt.
    eapply (contains_at_line_end _ "        The user has asked: ").
    cbn [In]. auto 25.
  - unfold movie_prompt. repeat (apply Forall_cons || apply Forall_nil).
    + eapply (contains_at_line_end _ "        Title: "). cbn [In]. auto 25.
    + eapply (contains_at_line_end _ "        Release Date: "). cbn [In]. auto 25.
    + eapply (contains_in_line _ "        Runtime: "). cbn [In]. auto 25.
    + eapply (contains_at_line_end _ "        Genres: "). cbn [In]. auto 25.
    + eapply (contains_in_line _ "        Rating: "). cbn [In]. auto 25.
    + eapply (contains_at_line_end _ "        Director: "). cbn [In]. auto 25.
    + eapply (contains_at_line_end _ "        Main Cast: "). cbn [In]. auto 25.
    + eapply (contains_at_line_end _ "        Overview: "). cbn [In]. auto 25.
    + eapply (contains_at_line_end _ "        Budget: $"). cbn [In]. auto 25.
    + eapply (contains_at_line_end _ "        Revenue: $"). cbn [In]. auto 25.
    + eapply (contains_at_line_end _ "        Trailer: "). cbn [In]. auto 25.
Qed.

(** * Further properties of the GUI *)

(** ** The handler, branch by branch *)

Lemma bind_eta {A B} (m : M A) (f : A -> M B) :
  bind m f = (fst (f (fst m)), (snd m ++ snd (f (fst m)))%list).
Proof. unfold bind. destruct m as [a t]. cbn. destruct (f a). reflexivity. Qed.

Ltac run_binds :=
  repeat (rewrite bind_eta; cbv beta);
  cbn [fst snd tell ret show_status app].

Lemma answer_general_query_run (w : World) (query : string) (self : Gui) :
  _answer_general_query w query self
  = (self,
     Status ("Answering: " ++ query)
       :: After (UpdateUiForGeneralQuery query)
       :: Call (GenerateGeneralResponse query true)
       :: snd (generate_general_response w query true (Some append_later))).
Proof.
  unfold _answer_general_query. run_binds. rewrite app_nil_r. reflexivity.
Qed.

Lemma handle_query_run (w : World) (query : string) (self : Gui) :
  let classification := fst (process_user_query w query) in
  let self' := {| trailer_info := trailer_info self;
                  current_movie := current_movie self;
                  last_query_type := Some (fst classification);
                  last_query := Some query |} in
  let branch :=
    if fst classification =? "movie"
    then _search_movie w (snd classification) self'
    else _answer_general_query w query self' in
  _handle_query w query self
  = (fst branch,
     Call (ProcessUserQuery query)
       :: Generate (classification_prompt query) false
       :: snd branch).
Proof.
  cbv zeta. unfold _handle_query. rewrite bind_tell, bind_eta.
  rewrite process_user_query_trace.
  destruct (fst (process_user_query w query)) as [kind refined].
  cbn [fst snd app]. reflexivity.
Qed.

(** The release year [_search_movie] hands to [find_trailer]. *)
Lemma search_movie_found_run (w : World) (query : string) (self : Gui)
    (movie : MovieSummary) (movie_details : MovieDetails) :
  fst (search_movie w query) = Some movie ->
  fst (get_movie_details w (summary_id movie)) = Some movie_details ->
  is_empty_object movie_details = false ->
  let release_year :=
    match summary_release_date movie with
    | Some date => if Py.truthy date then Some (Py.take 4 date) else None
    | None => None
    end in
  let found := find_trailer w (summary_title movie) release_year
                 (Some movie_details) in
  let poster :=
    match poster_path movie_details with
    | Some path =>
        if Py.truthy path
        then tell (Call (GetPosterImage path)) ;;; get_poster_image w path
        else ret None
    | None => ret None
    end in
  _search_movie w query self
  = ({| trailer_info := fst found;
        current_movie := Some movie_details;
        last_query_type := last_query_type self;
        last_query := last_query self |},
     [ Status ("Searching for movie: " ++ query);
       Call (SearchMovie query);
       HttpGet (tmdb_base_url ++ "/search/movie")
         [("api_key", TMDB_API_KEY w); ("query", query);
          ("language", "en-US"); ("include_adult", "false")];
       Status ("Found: " ++ summary_title movie ++ " - Getting details...");
       Call (GetMovieDetails (summary_id movie));
       HttpGet (tmdb_base_url ++ "/movie/" ++ Py.str_int (summary_id movie))
         [("api_key", TMDB_API_KEY w); ("language", "en-US");
          ("append_to_response", "credits,reviews,similar,videos")];
       Call (FindTrailer (summary_title movie) release_year) ]
     ++ snd found
     ++ snd poster
     ++ After (UpdateUiForMovie movie_details (fst found)
                 (match fst poster with Some _ => true | None => false end))
     :: match title movie_details with
        | Some movie_title =>
            Status ("Generating information about " ++ movie_title ++ "...")
              :: Call (GenerateMovieResponse movie_details (fst found) true)
              :: snd (generate_movie_response w movie_details (fst found) true
                        (Some append_later))
        | None => [Uncaught "KeyError"]
        end)%list.
Proof.
  intros Hfound Hdetails Hkeys. cbv zeta. unfold _search_movie.
  rewrite bind_eta. cbv beta. rewrite bind_eta. cbv beta.
  rewrite bind_eta. cbv beta. rewrite Hfound, search_movie_trace.
  rewrite bind_eta. cbv beta. rewrite bind_eta. cbv beta.
  rewrite bind_eta. cbv beta. rewrite Hdetails, get_movie_details_trace.
  cbn [truthy_details]. rewrite Hkeys.
  run_binds.
  destruct (title movie_details) as [movie_title|]; run_binds;
    rewrite ?app_nil_r; reflexivity.
Qed.

Lemma search_movie_not_found_run (w : World) (query : string) (self : Gui) :
  fst (search_movie w query) = None ->
  _search_movie w query self
  = (self,
     [ Status ("Searching for movie: " ++ query);
       Call (SearchMovie query);
       HttpGet (tmdb_base_url ++ "/search/movie")
         [("api_key", TMDB_API_KEY w); ("query", query);
          ("language", "en-US"); ("include_adult", "false")];
       Status ("Movie not found: " ++ query);
       Status ("Treating '" ++ query ++ "' as a general question...");
       Status ("Answering: " ++ query);
       After (UpdateUiForGeneralQuery query);
       Call (GenerateGeneralResponse query true) ]
     ++ snd (generate_general_response w query true (Some append_later)))%list.
Proof.
  intros Hnone. unfold _search_movie.
  rewrite bind_eta. cbv beta. rewrite bind_eta. cbv beta.
  rewrite bind_eta. cbv beta. rewrite Hnone, search_movie_trace.
  unfold _handle_movie_not_found. rewrite answer_general_query_run.
  run_binds. reflexivity.
Qed.

Lemma search_movie_unavailable_run (w : World) (query : string) (self : Gui)
    (movie : MovieSummary) :
  fst (search_movie w query) = Some movie ->
  truthy_details (fst (get_movie_details w (summary_id movie))) = None ->
  _search_movie w query self
  = (self,
     [ Status ("Searching for movie: " ++ query);
       Call (SearchMovie query);
       HttpGet (tmdb_base_url ++ "/search/movie")
         [("api_key", TMDB_API_KEY w); ("query", query);
          ("language", "en-US"); ("include_adult", "false")];
       Status ("Found: " ++ summary_title movie ++ " - Getting details...");
       Call (GetMovieDetails (summary_id movie));
       HttpGet (tmdb_base_url ++ "/movie/" ++ Py.str_int (summary_id movie))
         [("api_key", TMDB_API_KEY w); ("language", "en-US");
          ("append_to_response", "credits,reviews,similar,videos")];
       Status ("Error fetching details for " ++ summary_title movie);
       After EnableSearchButton ]).
Proof.
  intros Hfound Hnone. unfold _search_movie.
  rewrite bind_eta. cbv beta. rewrite bind_eta. cbv beta.
  rewrite bind_eta. cbv beta. rewrite Hfound, search_movie_trace.
  rewrite bind_eta. cbv beta. rewrite bind_eta. cbv beta.
  rewrite bind_eta. cbv beta. rewrite Hnone, get_movie_details_trace.
  run_binds. reflexivity.
Qed.

Lemma truthy_details_cases (movie_details : option MovieDetails) :
  (exists details,
     movie_details = Some details /\ is_empty_object details = false)
  \/ truthy_details movie_details = None.
Proof.
  destruct movie_details as [details|]; [|right; reflexivity].
  cbn [truthy_details]. destruct (is_empty_object details) eqn:Hkeys;
    [right; reflexivity|].
  left. exists details. auto.
Qed.

Lemma titled_has_keys (details : MovieDetails) :
  title details <> None -> is_empty_object details = false.
Proof.
  unfold is_empty_object. destruct (title details); [reflexivity|].
  intros Hnone. now elim Hnone.
Qed.

(** ** The traces of the agent's methods under the GUI's callback *)

Lemma appended_only_display (pieces : list string) :
  only_model_and_display
    (flat_map (fun piece => snd (append_later piece)) pieces).
Proof.
  induction pieces as [|piece rest IH]; [constructor|].
  constructor; [exact I | exact IH].
Qed.

Lemma synthesis_only_display (w : World) (prompt fallback : string) :
  only_model_and_display
    (snd (attempt <- try_generate w prompt true (Some append_later) ;;
          match attempt with
          | Some response_text => ret response_text
          | None => deliver_fallback fallback (Some append_later)
          end)).
Proof.
  rewrite synthesis_of_attempt, try_generate_streaming. cbv zeta.
  destruct (stream_completes _); cbn [fst snd].
  - constructor; [exact I | apply appended_only_display].
  - constructor; [exact I|]. apply Forall_app. split.
    + apply appended_only_display.
    + constructor; [exact I | constructor].
Qed.

Lemma general_response_only_display (w : World) (query : string) :
  only_model_and_display
    (snd (generate_general_response w query true (Some append_later))).
Proof. apply synthesis_only_display. Qed.

Lemma movie_response_only_display (w : World) (movie_data : MovieDetails)
    (trailer : option TrailerInfo) :
  only_model_and_display
    (snd (generate_movie_response w movie_data trailer true (Some append_later))).
Proof. apply synthesis_only_display. Qed.


Lemma only_display_no_http (t : list event) :
  only_model_and_display t -> http_requests t = [].
Proof.
  induction 1 as [|e t He _ IH]; [reflexivity|].
  unfold http_requests in *. cbn [filter].
  destruct e as [| | | |u|c|]; try destruct He; try exact IH.
Qed.


Lemma find_trailer_trace_cases (w : World) (movie_title : string)
    (year : option string) (movie_data : option MovieDetails) :
  snd (find_trailer w movie_title year movie_data) = []
  \/ exists url, snd (find_trailer w movie_title year movie_data)
                 = [HttpGet url []].
Proof.
  unfold find_trailer. destruct (tmdb_trailer_video movie_data);
    [left; reflexivity|].
  right. eexists. rewrite bind_tell. cbn [snd].
  destruct (web_search w _) as [|status links]; [reflexivity|].
  destruct (raises_for_status status); [reflexivity|].
  destruct (flat_map (youtube_link movie_title) links); reflexivity.
Qed.

Lemma poster_trace_cases (w : World) (movie_details : MovieDetails) :
  let poster :=
    match poster_path movie_details with
    | Some path =>
        if Py.truthy path
        then tell (Call (GetPosterImage path)) ;;; get_poster_image w path
        else ret None
    | None => ret None
    end in
  snd poster = []
  \/ exists path url, snd poster = [Call (GetPosterImage path); HttpGet url []].
Proof.
  cbv zeta. destruct (poster_path movie_details) as [path|]; [|left; reflexivity].
  destruct (Py.truthy path) eqn:Hpath; [|left; reflexivity].
  right. exists path. eexists. rewrite bind_tell. unfold get_poster_image.
  rewrite Hpath. cbn [negb]. rewrite bind_tell.
  destruct (poster_image w path); reflexivity.
Qed.

(** ** The outcomes of a query *)


Lemma appended_no_model_request (pieces : list string) :
  model_requests (flat_map (fun piece => snd (append_later piece)) pieces) = [].
Proof. induction pieces as [|piece rest IH]; [reflexivity | exact IH]. Qed.

Lemma synthesis_model_requests (w : World) (prompt fallback : string) :
  model_requests
    (snd (attempt <- try_generate w prompt true (Some append_later) ;;
          match attempt with
          | Some response_text => ret response_text
          | None => deliver_fallback fallback (Some append_later)
          end))
  = [Generate prompt true].
Proof.
  rewrite synthesis_of_attempt, try_generate_streaming. cbv zeta.
  destruct (stream_completes _); cbn [fst snd].
  - change (Generate prompt true
              :: model_requests
                   (flat_map (fun piece => snd (append_later piece))
                      (stream_pieces (generate_content_stream w prompt)))
            = [Generate prompt true]).
    rewrite appended_no_model_request. reflexivity.
  - change (Generate prompt true
              :: model_requests
                   (flat_map (fun piece => snd (append_later piece))
                      (stream_pieces (generate_content_stream w prompt))
                    ++ snd (append_later fallback))
            = [Generate prompt true]).
    unfold model_requests. rewrite filter_app.
    fold (model_requests
            (flat_map (fun piece => snd (append_later piece))
               (stream_pieces (generate_content_stream w prompt)))).
    rewrite appended_no_model_request. reflexivity.
Qed.

(** X11. A query classified as general goes straight to the synthesis: the
    handler makes no HTTP request at all (no catalog search, no detail fetch,
    no web search, no poster), asks the model twice (the classification, then
    the streamed answer to the original query), and records the type
    ["general"]. *)
Theorem general_query_skips_the_catalog (w : World) (query : string)
    (self : Gui) :
  fst (fst (process_user_query w query)) = "general" ->
  let result := _handle_query w query self in
  http_requests (snd result) = []
  /\ model_requests (snd result)
     = [ Generate (classification_prompt query) false;
         Generate (general_prompt query) true ]
  /\ fst result
     = {| trailer_info := trailer_info self;
          current_movie := current_movie self;
          last_query_type := Some "general";
          last_query := Some query |}.
Proof.
  intros Hkind. cbv zeta. rewrite handle_query_run. cbv zeta.
  rewrite Hkind. cbn [String.eqb Ascii.eqb Bool.eqb].
  rewrite answer_general_query_run. cbn [fst snd].
  split; [|split; [|reflexivity]].
  - pose proof (only_display_no_http _
                  (general_response_only_display w query)) as Hnone.
    unfold http_requests in Hnone |- *. cbn [filter]. exact Hnone.
  - pose proof (synthesis_model_requests w (general_prompt query)
                  (general_fallback query)) as Hone.
    unfold model_requests in Hone |- *. cbn [filter].
    unfold generate_general_response. rewrite Hone. reflexivity.
Qed.

Lemma general_query_skips_the_catalog_witness :
  let w := catalog_world (Text "general: what is film noir?")
             (Chunk "A style." StreamEnd) 200 in
  fst (fst (process_user_query w "What is film noir?")) = "general"
  /\ http_requests (snd (_handle_query w "What is film noir?" init_gui)) = [].
Proof.
  cbv zeta. split; [reflexivity|].
  exact (proj1 (general_query_skips_the_catalog
                  (catalog_world (Text "general: what is film noir?")
                     (Chunk "A style." StreamEnd) 200)
                  "What is film noir?" init_gui eq_refl)).
Defined.

(** X12. No request is repeated and none is retried: whatever the services
    answer, one query makes at most two requests to the model, the first of
    them the classification, and at most four HTTP requests (catalog search,
    details, web search, poster). *)
Theorem one_attempt_per_service (w : World) (query : string) (self : Gui) :
  let t := snd (_handle_query w query self) in
  (List.length (http_requests t) <= 4)%nat
  /\ (List.length (model_requests t) <= 2)%nat
  /\ exists rest, model_requests t
                  = Generate (classification_prompt query) false :: rest.
Proof.
  cbv zeta. rewrite handle_query_run. cbv zeta.
  destruct (fst (process_user_query w query)) as [kind refined].
  cbn [fst snd].
  destruct (kind =? "movie").
  - destruct (fst (search_movie w refined)) as [movie|] eqn:Hsearch.
    + destruct (truthy_details_cases
                  (fst (get_movie_details w (summary_id movie))))
        as [(details & Hdetails & Hkeys) | Hdetails].
      * rewrite (search_movie_found_run _ _ _ _ _ Hsearch Hdetails Hkeys).
        cbv zeta. cbn [fst snd].
        set (found := find_trailer w (summary_title movie) _ (Some details)).
        pose proof (only_display_no_http _
                      (movie_response_only_display w details (fst found)))
          as Hhttp.
        pose proof (synthesis_model_requests w
                      (movie_prompt (make_context details (fst found)))
                      (_create_fallback_response
                         (make_context details (fst found)))) as Hmodel.
        fold (generate_movie_response w details (fst found) true
                (Some append_later)) in Hmodel.
        unfold http_requests in Hhttp. unfold model_requests in Hmodel.
        destruct (find_trailer_trace_cases w (summary_title movie)
                    match summary_release_date movie with
                    | Some date =>
                        if Py.truthy date then Some (Py.take 4 date) else None
                    | None => None
                    end (Some details)) as [Hf | [url Hf]];
          fold found in Hf; rewrite Hf;
          destruct (poster_trace_cases w details) as [Hp | (path & purl & Hp)];
          cbv zeta in Hp; rewrite Hp; cbn [app];
          destruct (title details) as [movie_title|];
          unfold http_requests, model_requests; cbn [filter];
          rewrite ?Hhttp, ?Hmodel; cbn [List.length];
          (split; [lia|]; split; [lia|]; eexists; reflexivity).
      * rewrite (search_movie_unavailable_run _ _ _ _ Hsearch Hdetails).
        cbn [snd]. split; [cbn; lia|]. split; [cbn; lia|].
        eexists. reflexivity.
    + rewrite (search_movie_not_found_run _ _ _ Hsearch). cbn [snd app].
      pose proof (only_display_no_http _
                    (general_response_only_display w refined)) as Hhttp.
      pose proof (synthesis_model_requests w (general_prompt refined)
                    (general_fallback refined)) as Hmodel.
      fold (generate_general_response w refined true (Some append_later))
        in Hmodel.
      unfold http_requests in Hhttp |- *. unfold model_requests in Hmodel |- *.
      cbn [filter]. rewrite Hhttp, Hmodel. cbn [List.length].
      split; [lia|]. split; [lia|]. eexists. reflexivity.
  - rewrite answer_general_query_run. cbn [snd].
    pose proof (only_display_no_http _
                  (general_response_only_display w query)) as Hhttp.
    pose proof (synthesis_model_requests w (general_prompt query)
                  (general_fallback query)) as Hmodel.
    fold (generate_general_response w query true (Some append_later))
      in Hmodel.
    unfold http_requests in Hhttp |- *. unfold model_requests in Hmodel |- *.
    cbn [filter]. rewrite Hhttp, Hmodel. cbn [List.length].
    split; [lia|]. split; [lia|]. eexists. reflexivity.
Qed.

Lemma take_length (n : nat) (s : string) :
  String.length (Py.take n s) = Nat.min n (String.length s).
Proof.
  unfold Py.take. revert n. induction s as [|c r IH]; intros n.
  - destruct n; reflexivity.
  - destruct n as [|n]; [reflexivity|]. cbn [substring String.length Nat.min].
    rewrite IH. reflexivity.
Qed.



(** ** The widgets after a query *)

Lemma mainloop_app (t1 t2 : list event) (ws : Ui.Widgets) :
  Ui.mainloop (t1 ++ t2) ws = Ui.mainloop t2 (Ui.mainloop t1 ws).
Proof.
  revert ws. induction t1 as [|e t1 IH]; intros ws; [reflexivity|].
  destruct e; cbn [app Ui.mainloop]; apply IH.
Qed.

Lemma append_text_info (text : string) (ws : Ui.Widgets) :
  Ui.info_text (Ui._append_text text ws) = Ui.info_text ws ++ text.
Proof. unfold Ui._append_text. destruct (Py.truthy text); reflexivity. Qed.

Lemma mainloop_info_text (t : list event) (ws : Ui.Widgets) :
  Ui.info_text (Ui.mainloop t ws)
  = Ui.info_text ws ++ String.concat "" (appended_text t).
Proof.
  revert ws. induction t as [|e t IH]; intros ws.
  - cbn. symmetry. apply append_empty_r.
  - destruct e as [| | |message|u|c|]; cbn [Ui.mainloop appended_text];
      try apply IH.
    + rewrite IH. reflexivity.
    + destruct u as [details trailer poster|query|text|];
        cbn [Ui.run_callback appended_text]; rewrite IH.
      * unfold Ui._update_ui_for_movie. destruct (title details); reflexivity.
      * reflexivity.
      * rewrite append_text_info, concat_cons, append_assoc. reflexivity.
      * reflexivity.
Qed.




Lemma lstrip_of_spaces (s : string) :
  forallb Py.isspace (list_ascii_of_string s) = true -> Py.lstrip s = "".
Proof.
  induction s as [|c r IH]; [reflexivity|].
  cbn [list_ascii_of_string forallb Py.lstrip]. intros Hall.
  apply andb_true_iff in Hall. destruct Hall as [Hc Hr].
  rewrite Hc. exact (IH Hr).
Qed.

(** X14. An entry that is empty or holds nothing but whitespace is refused:
    [process_query] only sets the status ["Please enter a question or movie
    title"]. It starts no thread, so the agent is not called; the search
    button keeps its state and the display keeps its content. *)
Theorem blank_entry_is_refused (ws : Ui.Widgets) :
  forallb Py.isspace (list_ascii_of_string (Ui.search_var ws)) = true ->
  Ui.process_query ws
  = (Ui.show_status "Please enter a question or movie title" ws, None)
  /\ Ui.search_button (fst (Ui.process_query ws)) = Ui.search_button ws
  /\ Ui.info_text (fst (Ui.process_query ws)) = Ui.info_text ws.
Proof.
  intros Hblank.
  assert (Hrefused :
    Ui.process_query ws
    = (Ui.show_status "Please enter a question or movie title" ws, None)).
  { unfold Ui.process_query, Py.strip.
    rewrite (lstrip_of_spaces _ Hblank). reflexivity. }
  rewrite Hrefused. repeat split.
Qed.

Lemma blank_entry_is_refused_witness :
  let ws := Ui.typed "   " Ui.setup_ui in
  forallb Py.isspace (list_ascii_of_string (Ui.search_var ws)) = true
  /\ Ui.process_query ws
     = (Ui.show_status "Please enter a question or movie title" ws, None).
Proof.
  cbv zeta. split; [reflexivity|].
  exact (proj1 (blank_entry_is_refused (Ui.typed "   " Ui.setup_ui) eq_refl)).
Defined.

Lemma process_query_run (ws : Ui.Widgets) :
  Py.truthy (Py.strip (Ui.search_var ws)) = true ->
  Ui.process_query ws
  = (Ui.clear_info
       (Ui.config_search_button false
          (Ui.show_status "Processing query..." ws)),
     Some (Py.strip (Ui.search_var ws))).
Proof.
  intros Hquery. unfold Ui.process_query. rewrite Hquery. reflexivity.
Qed.

(** X15. [process_query] empties the text area when it accepts an entry, and
    from then on the text area holds exactly what the callbacks appended, in
    the order the main loop ran them: whatever the sequence of callbacks, be
    they those of the handler just started or those of an older handler that
    is still streaming, nothing of the earlier content is left and no
    fragment is lost or reordered. *)
Theorem text_area_holds_what_was_appended_since (ws : Ui.Widgets)
    (t : list event) :
  Py.truthy (Py.strip (Ui.search_var ws)) = true ->
  snd (Ui.process_query ws) = Some (Py.strip (Ui.search_var ws))
  /\ Ui.info_text (fst (Ui.process_query ws)) = ""
  /\ Ui.info_text (Ui.mainloop t (fst (Ui.process_query ws)))
     = String.concat "" (appended_text t).
Proof.
  intros Hquery. rewrite (process_query_run _ Hquery). cbn [fst snd].
  split; [reflexivity|]. split; [reflexivity|].
  rewrite mainloop_info_text. reflexivity.
Qed.

Lemma text_area_holds_what_was_appended_since_witness :
  let w := catalog_world (Text "general: noir") (Chunk "A " (Chunk "style." StreamEnd))
             200 in
  let ws := {| Ui.search_var := " What is film noir? ";
               Ui.info_text := "An older answer.";
               Ui.poster_label_text := ""; Ui.poster_label_image := true;
               Ui.title_label := "Heat (1995)"; Ui.trailer_button := true;
               Ui.search_button := true; Ui.status_var := "Ready" |} in
  let older := [After (AppendText "tail of an older answer. ")] in
  Py.truthy (Py.strip (Ui.search_var ws)) = true
  /\ Ui.info_text
       (Ui.mainloop
          (older ++ snd (_handle_query w "What is film noir?" init_gui))
          (fst (Ui.process_query ws)))
     = "tail of an older answer. A style.".
Proof.
  cbv zeta. split; [reflexivity|].
  exact (proj2 (proj2 (text_area_holds_what_was_appended_since
                         {| Ui.search_var := " What is film noir? ";
                            Ui.info_text := "An older answer.";
                            Ui.poster_label_text := "";
                            Ui.poster_label_image := true;
                            Ui.title_label := "Heat (1995)";
                            Ui.trailer_button := true;
                            Ui.search_button := true;
                            Ui.status_var := "Ready" |}
                         ([After (AppendText "tail of an older answer. ")]
                          ++ snd (_handle_query
                                    (catalog_world (Text "general: noir")
                                       (Chunk "A " (Chunk "style." StreamEnd)) 200)
                                    "What is film noir?" init_gui))
                         eq_refl))).
Defined.

Lemma appended_text_app (t1 t2 : list event) :
  appended_text (t1 ++ t2) = (appended_text t1 ++ appended_text t2)%list.
Proof.
  induction t1 as [|e t1 IH]; [reflexivity|].
  destruct e as [| | | |u|c|]; cbn [app appended_text]; try exact IH.
  destruct u; cbn [appended_text]; rewrite ?IH; reflexivity.
Qed.

Lemma appended_text_later (pieces : list string) :
  appended_text (flat_map (fun piece => snd (append_later piece)) pieces)
  = pieces.
Proof.
  induction pieces as [|piece rest IH]; [reflexivity|].
  cbn in IH |- *. rewrite IH. reflexivity.
Qed.

Lemma concat_app (a b : list string) :
  String.concat "" (a ++ b) = String.concat "" a ++ String.concat "" b.
Proof.
  induction a as [|x a IH]; [reflexivity|].
  change ((x :: a) ++ b)%list with (x :: (a ++ b))%list.
  rewrite !concat_cons, IH, append_assoc. reflexivity.
Qed.

Lemma synthesis_display (w : World) (prompt fallback : string) :
  let chunks := generate_content_stream w prompt in
  let result :=
    attempt <- try_generate w prompt true (Some append_later) ;;
    match attempt with
    | Some response_text => ret response_text
    | None => deliver_fallback fallback (Some append_later)
    end in
  fst result = (if stream_completes chunks
                then String.concat "" (stream_pieces chunks) else fallback)
  /\ String.concat "" (appended_text (snd result))
     = if stream_completes chunks then fst result
       else String.concat "" (stream_pieces chunks) ++ fst result.
Proof.
  cbv zeta. rewrite synthesis_of_attempt, try_generate_streaming. cbv zeta.
  pose proof (appended_text_later
                (stream_pieces (generate_content_stream w prompt))) as Hlater.
  destruct (stream_completes _); cbn [fst snd].
  - change (appended_text (Generate prompt true :: ?t))
      with (appended_text t).
    rewrite Hlater. split; reflexivity.
  - rewrite appended_text_app.
    change (appended_text (Generate prompt true :: ?t))
      with (appended_text t).
    rewrite Hlater, concat_app. split; reflexivity.
Qed.

(** X16. What the text area shows after a streamed synthesis under the GUI's
    callback: the returned text when the stream ended well; when it broke,
    the fragments that had arrived, followed by the whole fallback, although
    the method returns the fallback alone. This holds for both synthesis
    methods, from any state of the widgets. *)
Theorem display_after_synthesis (w : World) (ws : Ui.Widgets)
    (movie_data : MovieDetails) (trailer : option TrailerInfo)
    (query : string) :
  let shown (prompt : string) (result : M string) :=
    Ui.info_text (Ui.mainloop (snd result) ws)
    = Ui.info_text ws
      ++ (if stream_completes (generate_content_stream w prompt)
          then fst result
          else String.concat ""
                 (stream_pieces (generate_content_stream w prompt))
               ++ fst result) in
  shown (movie_prompt (make_context movie_data trailer))
    (generate_movie_response w movie_data trailer true (Some append_later))
  /\ shown (general_prompt query)
       (generate_general_response w query true (Some append_later)).
Proof.
  cbv zeta. split; rewrite mainloop_info_text; f_equal.
  - exact (proj2 (synthesis_display w
                    (movie_prompt (make_context movie_data trailer))
                    (_create_fallback_response
                       (make_context movie_data trailer)))).
  - exact (proj2 (synthesis_display w (general_prompt query)
                    (general_fallback query))).
Qed.

Example display_after_broken_stream :
  Ui.info_text
    (Ui.mainloop
       (snd (generate_general_response (streaming_world false) "noir" true
               (Some append_later)))
       Ui.setup_ui)
  = "Heat (1995)I'm sorry, I couldn't process your query: 'noir'. Please try asking in a different way.".
Proof. reflexivity. Qed.




Lemma find_trailer_url_truthy (w : World) (movie_title : string)
    (year : option string) (movie_data : option MovieDetails)
    (info : TrailerInfo) :
  fst (find_trailer w movie_title year movie_data) = Some info ->
  Py.truthy (trailer_url info) = true.
Proof.
  unfold find_trailer.
  destruct (tmdb_trailer_video movie_data) as [video|].
  - cbn [fst ret]. intros [= <-]. reflexivity.
  - rewrite bind_tell. cbn [fst].
    destruct (web_search w _) as [|status links]; [discriminate|].
    destruct (raises_for_status status); [discriminate|].
    destruct (flat_map (youtube_link movie_title) links) as [|first rest] eqn:Hlinks;
      [discriminate|].
    cbn [fst ret]. intros [= ->].
    apply flat_map_head in Hlinks.
    destruct Hlinks as (earlier & link & later & tail & _ & _ & Hlink).
    apply youtube_link_cons in Hlink.
    destruct Hlink as (href & _ & _ & _ & Hurl). rewrite Hurl. reflexivity.
Qed.

Lemma run_callback_trailer_button_display (text : string) (ws : Ui.Widgets) :
  Ui.trailer_button (Ui._append_text text ws) = Ui.trailer_button ws.
Proof. unfold Ui._append_text. destruct (Py.truthy text); reflexivity. Qed.

Lemma only_display_keeps_trailer_button (t : list event) (ws : Ui.Widgets) :
  only_model_and_display t ->
  Ui.trailer_button (Ui.mainloop t ws) = Ui.trailer_button ws.
Proof.
  intros Honly. revert ws. induction Honly as [|e t He _ IH]; intros ws;
    [reflexivity|].
  destruct e as [| | | |u|c|]; try destruct He; cbn [Ui.mainloop].
  - apply IH.
  - destruct u; try destruct He. cbn [Ui.run_callback].
    rewrite IH. apply run_callback_trailer_button_display.
Qed.

Lemma trailer_button_after_handler (w : World) (query : string) (self : Gui)
    (ws : Ui.Widgets) :
  Ui.trailer_button ws = false ->
  Ui.trailer_button (Ui.mainloop (snd (_handle_query w query self)) ws) = true ->
  exists info,
    trailer_info (fst (_handle_query w query self)) = Some info
    /\ Py.truthy (trailer_url info) = true.
Proof.
  intros Hoff. rewrite handle_query_run. cbv zeta.
  destruct (fst (process_user_query w query)) as [kind refined].
  cbn [fst snd Ui.mainloop].
  destruct (kind =? "movie").
  - destruct (fst (search_movie w refined)) as [movie|] eqn:Hsearch.
    + destruct (truthy_details_cases
                  (fst (get_movie_details w (summary_id movie))))
        as [(details & Hdetails & Hkeys) | Hdetails].
      * rewrite (search_movie_found_run _ _ _ _ _ Hsearch Hdetails Hkeys).
        cbv zeta. cbn [fst snd trailer_info].
        set (found := find_trailer w (summary_title movie) _ (Some details)).
        pose proof (find_trailer_url_truthy w (summary_title movie)
                      match summary_release_date movie with
                      | Some date =>
                          if Py.truthy date then Some (Py.take 4 date) else None
                      | None => None
                      end (Some details)) as Htruthy.
        fold found in Htruthy.
        destruct (find_trailer_trace_cases w (summary_title movie)
                    match summary_release_date movie with
                    | Some date =>
                        if Py.truthy date then Some (Py.take 4 date) else None
                    | None => None
                    end (Some details)) as [Hf | [url Hf]];
          fold found in Hf; rewrite Hf;
          destruct (poster_trace_cases w details) as [Hp | (path & purl & Hp)];
          cbv zeta in Hp; rewrite Hp; cbn [app Ui.mainloop Ui.run_callback];
          unfold Ui._update_ui_for_movie;
          destruct (title details) as [movie_title|];
          cbn [Ui.mainloop];
          rewrite ?(only_display_keeps_trailer_button _ _
                      (movie_response_only_display w details (fst found)));
          cbn [Ui.trailer_button Ui.show_status]; rewrite ?Hoff;
          try discriminate;
          (destruct (fst found) as [info|]; [|discriminate];
           intros _; exists info; split; [reflexivity | apply Htruthy; reflexivity]).
      * rewrite (search_movie_unavailable_run _ _ _ _ Hsearch Hdetails).
        cbn [snd Ui.mainloop Ui.run_callback Ui.trailer_button
             Ui.show_status Ui.config_search_button].
        rewrite Hoff. discriminate.
    + rewrite (search_movie_not_found_run _ _ _ Hsearch).
      cbn [snd app Ui.mainloop Ui.run_callback].
      rewrite (only_display_keeps_trailer_button _ _
                 (general_response_only_display w refined)).
      cbn. discriminate.
  - rewrite answer_general_query_run. cbn [snd Ui.mainloop Ui.run_callback].
    rewrite (only_display_keeps_trailer_button _ _
               (general_response_only_display w query)).
    cbn. discriminate.
Qed.

(** X18. The postcondition of one handled query on the trailer button: when
    the callbacks of a handler run on widgets whose trailer button is
    disabled, as [process_query] leaves it, and no other handler or entry
    comes in between, an enabled trailer button means that this handler
    stored a trailer in [trailer_info] and that [open_trailer] opens the URL
    of that trailer. *)
Theorem trailer_button_opens_the_trailer (w : World) (query : string)
    (self : Gui) (ws : Ui.Widgets) :
  let handled := _handle_query w query self in
  let after := Ui.mainloop (snd handled) ws in
  (Py.truthy (Py.strip (Ui.search_var ws)) = true ->
   Ui.trailer_button (fst (Ui.process_query ws)) = false)
  /\ (Ui.trailer_button ws = false ->
      Ui.trailer_button after = true ->
      exists info,
        trailer_info (fst handled) = Some info
        /\ fst (Ui.open_trailer (fst handled) after) = Some (trailer_url info)).
Proof.
  cbv zeta. split.
  - intros Hquery. rewrite (process_query_run _ Hquery). reflexivity.
  - intros Hoff Hon.
    destruct (trailer_button_after_handler w query self ws Hoff Hon)
      as (info & Hinfo & Htruthy).
    exists info. split; [exact Hinfo|].
    unfold Ui.open_trailer. rewrite Hinfo, Htruthy. reflexivity.
Qed.

Lemma trailer_button_opens_the_trailer_witness :
  let w := catalog_world (Text "movie: heat") (Chunk "Heat." StreamEnd) 200 in
  let ws := fst (Ui.process_query (Ui.typed "heat" Ui.setup_ui)) in
  let handled := _handle_query w "heat" init_gui in
  Ui.trailer_button ws = false
  /\ Ui.trailer_button (Ui.mainloop (snd handled) ws) = true
  /\ exists info,
       trailer_info (fst handled) = Some info
       /\ fst (Ui.open_trailer (fst handled) (Ui.mainloop (snd handled) ws))
          = Some (trailer_url info).
Proof.
  cbv zeta. split; [reflexivity|]. split; [reflexivity|].
  exact (proj2 (trailer_button_opens_the_trailer
                  (catalog_world (Text "movie: heat") (Chunk "Heat." StreamEnd) 200)
                  "heat" init_gui
                  (fst (Ui.process_query (Ui.typed "heat" Ui.setup_ui))))
           eq_refl eq_refl).
Defined.

Lemma append_length (a b : string) :
  String.length (a ++ b) = (String.length a + String.length b)%nat.
Proof. induction a as [|c a IH]; cbn; [|rewrite IH]; reflexivity. Qed.

(** X19. The title label of a general query is the query after ["Query: "],
    whole when it has at most thirty characters, cut to its first thirty and
    followed by ["..."] when it is longer; the label never exceeds forty
    characters. The callback also hides the poster, disables the trailer
    button and enables the search button. *)
Theorem general_query_label_is_bounded (query : string) (ws : Ui.Widgets) :
  let after := Ui._update_ui_for_general_query query ws in
  ((String.length query <= 30)%nat ->
   Ui.title_label after = "Query: " ++ query)
  /\ ((30 < String.length query)%nat ->
      Ui.title_label after = "Query: " ++ Py.take 30 query ++ "..."
      /\ String.length (Ui.title_label after) = 40%nat)
  /\ (String.length (Ui.title_label after) <= 40)%nat
  /\ Ui.poster_label_image after = false
  /\ Ui.trailer_button after = false
  /\ Ui.search_button after = true.
Proof.
  cbv zeta. cbn [Ui._update_ui_for_general_query Ui.title_label
    Ui.poster_label_image Ui.trailer_button Ui.search_button].
  destruct (Nat.ltb_spec 30 (String.length query)) as [Hlong | Hshort].
  - assert (Hlen : String.length ("Query: " ++ Py.take 30 query ++ "...") = 40%nat).
    { rewrite !append_length, take_length. cbn [String.length]. lia. }
    split; [lia|]. split; [auto|]. split; [lia|]. auto.
  - split; [reflexivity|]. split; [lia|].
    split; [rewrite append_length; cbn [String.length]; lia|]. auto.
Qed.

Lemma general_query_label_is_bounded_witness :
  let query := "Which films of the nineteen forties count as film noir?" in
  (30 < String.length query)%nat
  /\ Ui.title_label (Ui._update_ui_for_general_query query Ui.setup_ui)
     = "Query: Which films of the nineteen fo...".
Proof.
  cbv zeta. split; [cbn; lia|].
  destruct (proj1 (proj2 (general_query_label_is_bounded
                            "Which films of the nineteen forties count as film noir?"
                            Ui.setup_ui)))
    as [Hlabel _]; [cbn; lia|].
  rewrite Hlabel. reflexivity.
Defined.

Lemma only_display_keeps_labels (t : list event) (ws : Ui.Widgets) :
  only_model_and_display t ->
  Ui.title_label (Ui.mainloop t ws) = Ui.title_label ws
  /\ Ui.poster_label_image (Ui.mainloop t ws) = Ui.poster_label_image ws
  /\ Ui.search_button (Ui.mainloop t ws) = Ui.search_button ws.
Proof.
  intros Honly. revert ws. induction Honly as [|e t He _ IH]; intros ws;
    [repeat split|].
  destruct e as [| | | |u|c|]; try destruct He; cbn [Ui.mainloop].
  - apply IH.
  - destruct u as [| |text|]; try destruct He. cbn [Ui.run_callback].
    destruct (IH (Ui._append_text text ws)) as (Htitle & Hposter & Hsearch).
    rewrite Htitle, Hposter, Hsearch. unfold Ui._append_text.
    destruct (Py.truthy text); repeat split.
Qed.

(** X20. After a movie answer the widgets show the film of the details,
    whatever they showed before: the title label is the title of the details,
    followed in parentheses by the first four characters of their release
    date when they have a non-empty one; the poster label shows an image
    exactly when the details have a non-empty poster path and that poster
    could be fetched; the trailer button is enabled exactly when
    [trailer_info] holds a trailer; the search button is enabled. *)
Theorem movie_answer_configures_the_widgets (w : World) (self : Gui)
    (ws : Ui.Widgets) (query : string) (movie : MovieSummary)
    (details : MovieDetails) (movie_title : string) :
  let refined := snd (fst (process_user_query w query)) in
  fst (fst (process_user_query w query)) = "movie" ->
  fst (search_movie w refined) = Some movie ->
  fst (get_movie_details w (summary_id movie)) = Some details ->
  title details = Some movie_title ->
  let handled := _handle_query w query self in
  let after := Ui.mainloop (snd handled) ws in
  Ui.title_label after
  = match release_date details with
    | Some date =>
        if Py.truthy date
        then movie_title ++ " (" ++ Py.take 4 date ++ ")"
        else movie_title
    | None => movie_title
    end
  /\ Ui.poster_label_image after
     = match poster_path details with
       | Some path => Py.truthy path && poster_image w path
       | None => false
       end
  /\ Ui.trailer_button after
     = match trailer_info (fst handled) with Some _ => true | None => false end
  /\ Ui.search_button after = true.
Proof.
  cbv zeta. intros Hkind Hsearch Hdetails Htitle.
  assert (Hkeys : is_empty_object details = false)
    by (apply titled_has_keys; congruence).
  rewrite handle_query_run.
  cbv zeta. rewrite Hkind. cbn [String.eqb Ascii.eqb Bool.eqb fst snd].
  rewrite (search_movie_found_run _ _ _ _ _ Hsearch Hdetails Hkeys).
  cbv zeta. cbn [fst snd trailer_info]. rewrite Htitle.
  set (found := find_trailer w (summary_title movie) _ (Some details)).
  pose proof (fun ws1 =>
                only_display_keeps_labels _ ws1
                  (movie_response_only_display w details (fst found)))
    as Hlabels.
  pose proof (fun ws1 =>
                only_display_keeps_trailer_button _ ws1
                  (movie_response_only_display w details (fst found)))
    as Htrailer.
  destruct (find_trailer_trace_cases w (summary_title movie)
              match summary_release_date movie with
              | Some date =>
                  if Py.truthy date then Some (Py.take 4 date) else None
              | None => None
              end (Some details)) as [Hf | [url Hf]];
    fold found in Hf; rewrite Hf;
    (destruct (poster_path details) as [path|];
     [ destruct (Py.truthy path) eqn:Hpath;
       [ rewrite bind_tell; unfold get_poster_image; rewrite Hpath;
         cbn [negb]; rewrite bind_tell; destruct (poster_image w path) | ]
     | ]);
    cbn [fst snd ret app Ui.mainloop Ui.run_callback andb];
    unfold Ui._update_ui_for_movie; rewrite Htitle;
    match goal with
    | |- context [Ui.mainloop _ ?ws1] =>
        destruct (Hlabels ws1) as (Ht & Hp & Hs);
        rewrite Ht, Hp, Hs, (Htrailer ws1)
    end;
    cbn [Ui.title_label Ui.poster_label_image Ui.trailer_button
         Ui.search_button Ui.show_status];
    repeat split.
Qed.

Lemma movie_answer_configures_the_widgets_witness :
  let w := catalog_world (Text "movie: heat") (Chunk "Heat." StreamEnd) 200 in
  let ws := fst (Ui.process_query (Ui.typed "heat" Ui.setup_ui)) in
  let after := Ui.mainloop (snd (_handle_query w "heat" init_gui)) ws in
  fst (search_movie w "heat") = Some heat_summary
  /\ Ui.title_label after = "Heat (1995)"
  /\ Ui.poster_label_image after = true.
Proof.
  cbv zeta. split; [reflexivity|].
  destruct (movie_answer_configures_the_widgets
              (catalog_world (Text "movie: heat") (Chunk "Heat." StreamEnd) 200)
              init_gui (fst (Ui.process_query (Ui.typed "heat" Ui.setup_ui)))
              "heat" heat_summary heat_details
              "Heat" eq_refl eq_refl eq_refl eq_refl)
    as (Hlabel & Hposter & _).
  split; [exact Hlabel | exact Hposter].
Defined.
